(** * RAG orchestration service of the OpenTelemetry chatbot

    A shallow embedding of [server/services/ragService.js] and
    [server/services/llmProvider.js], together with the part of the
    JavaScript runtime these two files rely on (strings, [Set] and [Map]
    in insertion order, [Number.prototype.toFixed], exceptions).

    Layout:
    - [Str], [Number]: strings, and IEEE-754 doubles by their exact value
      with [toFixed];
    - [JS]: references that may be absent, exceptions, object values;
    - [StringSet], [StringMap]: the insertion-ordered collections;
    - [Effects]: the external services and the small effect monad (an
      event trace plus exceptions) in which the async methods run;
    - [LLMProviderService]: the provider registry;
    - [RAGService]: [formatContext], [extractSources], [generateResponse],
      [askQuestion], [getContextForQuestion];
    - [Props], [Sample]: the statements of the properties and sample data;
    - the lemmas, and in [Service] the properties of the service. *)

From Stdlib Require Import ZArith NArith Ascii String Lia.
From Stdlib Require Import DecimalString DecimalPos DecimalN.
From stdpp Require Import base tactics option list strings.

Open Scope Z_scope.
Set Warnings "-register-all".

(* ================================================================== *)
(** * Strings *)
(* ================================================================== *)

Module Str.

(** The double quote character, which the sources use inside messages. *)
Definition dquote : string := String (ascii_of_nat 34) EmptyString.

(** [Array.prototype.join] on an array of strings. *)
Fixpoint join (sep : string) (l : list string) : string :=
  match l with
  | [] => ""
  | [x] => x
  | x :: rest => x +:+ sep +:+ join sep rest
  end.

(** [hay.includes(needle)], as a proposition: [needle] occurs in [hay]. *)
Definition contains (needle hay : string) : Prop :=
  exists pre post, hay = pre +:+ needle +:+ post.

(** The decimal digits of a natural number, without leading zeroes
    (["0"] for zero). *)
Definition digits (n : Z) : list ascii :=
  list_ascii_of_string (NilZero.string_of_uint (N.to_uint (Z.to_N n))).

Definition is_digit (c : ascii) : bool :=
  (48 <=? nat_of_ascii c)%nat && (nat_of_ascii c <=? 57)%nat.

(** The number a sequence of decimal digits denotes. *)
Definition decimal_value (cs : list ascii) : option N :=
  N.of_uint <$> NilZero.uint_of_string (string_of_list_ascii cs).

Definition of_chars : list ascii -> string := string_of_list_ascii.

End Str.

(* ================================================================== *)
(** * Numbers *)
(* ================================================================== *)

Module Number.
Import Str.

(** A JavaScript number.  A finite double is kept by its exact value
    [(-1)^neg * m * 2^e]; the two zeroes are [Finite neg 0 e].  Every
    double is such a value, and the functions below depend on the value
    only, not on the choice of [m] and [e]. *)
Inductive number : Type :=
| NaN
| Infinity (neg : bool)
| Finite (neg : bool) (m : N) (e : Z).

(** An array length or another small count, as a number. *)
Definition of_nat (n : nat) : number := Finite false (N.of_nat n) 0.

(** [x < 0] in the reals: the negative zero is not negative. *)
Definition is_negative (neg : bool) (m : N) : bool :=
  neg && negb (N.eqb m 0).

(** [m * 2^e >= 10^21]. *)
Definition ge_1e21 (m : N) (e : Z) : bool :=
  if 0 <=? e then 10 ^ 21 <=? Z.of_N m * 2 ^ e
  else 10 ^ 21 * 2 ^ (- e) <=? Z.of_N m.

(** The integer [n] for which [n / 10^f - m * 2^e] is as close to zero
    as possible, the larger one when there are two. *)
Definition scaled_round (m : N) (e : Z) (f : nat) : Z :=
  if 0 <=? e then Z.of_N m * 2 ^ e * 10 ^ Z.of_nat f
  else (2 * Z.of_N m * 10 ^ Z.of_nat f + 2 ^ (- e)) / 2 ^ (1 - e).

(** Round a positive integer to the nearest double, ties to the even
    significand.  Doubles from 2^53 on are integers, so the result is
    an integer too; a result of 2^1024 or more stands for an overflow. *)
Definition round_to_double (v : Z) : Z :=
  let sh := Z.log2 v + 1 - 53 in
  if sh <=? 0 then v
  else
    let q := Z.shiftr v sh in
    let r := v - Z.shiftl q sh in
    let half := 2 ^ (sh - 1) in
    let q' := if (half <? r) || ((r =? half) && Z.odd q) then q + 1 else q in
    Z.shiftl q' sh.

(** The shortest decimal significand [s] (of [k] digits) and exponent [n]
    with [round_to_double (s * 10^(n-k)) = X]; among several of the same
    length the closest to [X], then the even one.  [n0] is the number of
    digits of [X]. *)
Fixpoint shortest (X n0 : Z) (fuel : nat) (k : Z) : Z * Z :=
  match fuel with
  | O => (X, n0)
  | S fuel' =>
      let p := 10 ^ (n0 - k) in
      let lo := X / p in
      let hi := lo + 1 in
      let okl := round_to_double (lo * p) =? X in
      let okh := round_to_double (hi * p) =? X in
      let up := if hi =? 10 ^ k then (10 ^ (k - 1), n0 + 1) else (hi, n0) in
      let dl := X - lo * p in
      let dh := hi * p - X in
      if okl && okh then
        if (dl <? dh) || ((dl =? dh) && Z.even lo) then (lo, n0) else up
      else if okl then (lo, n0)
      else if okh then up
      else shortest X n0 fuel' (k + 1)
  end.

(** [Number::toString] on an integer-valued double [X >= 10^21]:
    always the exponential form. *)
Definition toString_large (X : Z) : string :=
  let n0 := Z.of_nat (length (digits X)) in
  let '(s, n) := shortest X n0 17 1 in
  match digits s with
  | [] => ""
  | d :: rest =>
      of_chars [d] +:+ (match rest with [] => "" | _ => "." +:+ of_chars rest end)
        +:+ "e+" +:+ of_chars (digits (n - 1))
  end.

(** [Number.prototype.toFixed(f)] for [0 <= f <= 100]. *)
Definition toFixed (x : number) (f : nat) : string :=
  match x with
  | NaN => "NaN"
  | Infinity false => "Infinity"
  | Infinity true => "-Infinity"
  | Finite neg m e =>
      let s := if is_negative neg m then "-" else "" in
      if ge_1e21 m e then s +:+ toString_large (Z.of_N m * 2 ^ e)
      else
        let ds := digits (scaled_round m e f) in
        let ds := if (length ds <=? f)%nat
                  then replicate (f + 1 - length ds) "0"%char ++ ds else ds in
        let k := length ds in
        s +:+ (match f with
               | O => of_chars ds
               | _ => of_chars (take (k - f) ds) +:+ "." +:+ of_chars (drop (k - f) ds)
               end)
  end.

(** [n] is the integer nearest to [m * 2^e * 10^f], the larger one of
    two at the same distance. *)
Definition nearest_scaled (m : N) (e : Z) (f : nat) (n : Z) : Prop :=
  let a := 2 ^ Z.max e 0 in
  let d := 2 ^ Z.max (- e) 0 in
  - d < 2 * (n * d - Z.of_N m * a * 10 ^ Z.of_nat f) <= d.

(** A decimal numeral with exactly [f] digits after the point: an
    optional minus sign, at least one digit, the point, [f] digits.
    [n] is the integer the digits denote once the point is dropped. *)
Definition fixed_decimals (f : nat) (negative : bool) (n : Z) (s : string) : Prop :=
  exists ip fp : list ascii,
    s = (if negative then "-" else "") +:+ of_chars ip +:+ "." +:+ of_chars fp
    /\ ip <> []
    /\ forallb is_digit ip = true
    /\ length fp = f
    /\ forallb is_digit fp = true
    /\ decimal_value (ip ++ fp) = Some (Z.to_N n).

(** The scores [toFixed] prints in fixed notation: the finite ones of
    magnitude below 10^21. *)
Definition fixed_range (x : number) : bool :=
  match x with
  | Finite _ m e => negb (ge_1e21 m e)
  | _ => false
  end.

(** The double nearest to the decimal literal [0.87]. *)
Definition d0_87 : number := Finite false 7836263351624663 (-53).

End Number.


(* ================================================================== *)
(** * Values, exceptions *)
(* ================================================================== *)

Module JS.
Import Number.

(** A reference that may be [undefined] or [null]. *)
Inductive nullable (A : Type) : Type :=
| Undefined
| Null
| Val (a : A).
Global Arguments Undefined {A}.
Global Arguments Null {A}.
Global Arguments Val {A} a.

Global Instance nullable_eq_dec {A} `{EqDecision A} : EqDecision (nullable A).
Proof. solve_decision. Defined.

(** A parameter default [x = d]: it applies to [undefined] only. *)
Definition default_param {A} (x d : nullable A) : nullable A :=
  match x with
  | Undefined => d
  | _ => x
  end.

(** [ToBoolean] on a string, and on a string that may be absent. *)
Definition truthy_string (s : string) : bool :=
  match s with
  | EmptyString => false
  | _ => true
  end.

Definition truthy (x : nullable string) : bool :=
  match x with
  | Val s => truthy_string s
  | _ => false
  end.

(** The reference holds no value. *)
Definition is_missing {A} (x : nullable A) : bool :=
  match x with
  | Val _ => false
  | _ => true
  end.

(** The text of a string that may be absent inside a template literal. *)
Definition show (x : nullable string) : string :=
  match x with
  | Undefined => "undefined"
  | Null => "null"
  | Val s => s
  end.

(** Thrown values: [new Error(message)], and the [TypeError] of the
    runtime on a property read of [null] or [undefined]. *)
Inductive exn : Type :=
| Error (message : string)
| TypeError (message : string).

Definition message (e : exn) : string :=
  match e with
  | Error m | TypeError m => m
  end.

Definition result (A : Type) : Type := exn + A.

(** The data the service returns: object literals keep their fields in
    the order they are written. *)
Inductive value : Type :=
| VUndefined
| VNull
| VString (s : string)
| VNumber (x : number)
| VArray (items : list value)
| VObject (fields : list (string * value)).

Definition of_nullable (x : nullable string) : value :=
  match x with
  | Undefined => VUndefined
  | Null => VNull
  | Val s => VString s
  end.

Fixpoint lookup_field (k : string) (fields : list (string * value)) : option value :=
  match fields with
  | [] => None
  | (k', v) :: rest => if String.eqb k k' then Some v else lookup_field k rest
  end.

(** [k in o]: the object has a field named [k]. *)
Definition has (k : string) (o : value) : bool :=
  match o with
  | VObject fields => bool_decide (is_Some (lookup_field k fields))
  | _ => false
  end.

(** [o.k]: [undefined] when the field is absent. *)
Definition get (k : string) (o : value) : value :=
  match o with
  | VObject fields => default VUndefined (lookup_field k fields)
  | _ => VUndefined
  end.

(** The names of the fields of an object, in order. *)
Definition keys (o : value) : list string :=
  match o with
  | VObject fields => fields.*1
  | _ => []
  end.

(** The message of the engine when a property of [null] or [undefined]
    is read. *)
Definition cannot_read {A} (x : nullable A) (prop : string) : string :=
  "Cannot read properties of "
    +:+ (match x with Null => "null" | _ => "undefined" end)
    +:+ " (reading '" +:+ prop +:+ "')".

(** Reading a property of a reference: a [TypeError] unless it holds a
    value. *)
Definition deref {A} (x : nullable A) (prop : string) : result A :=
  match x with
  | Val a => inr a
  | _ => inl (TypeError (cannot_read x prop))
  end.

End JS.

(* ================================================================== *)
(** * Insertion-ordered collections *)
(* ================================================================== *)

(** A JavaScript [Set] of strings: the elements in insertion order,
    each once. *)
Module StringSet.

Definition t : Type := list string.

Definition empty : t := [].

(** [set.add(x)]: a new element goes last, a present one changes
    nothing. *)
Definition add (x : string) (s : t) : t :=
  if bool_decide (x ∈ s) then s else s ++ [x].

(** [Array.from(set)]. *)
Definition to_array (s : t) : list string := s.

End StringSet.

(** A JavaScript [Map] with string keys: the entries in insertion order,
    each key once. *)
Module StringMap.
Import JS.

Definition t (V : Type) : Type := list (string * V).

Definition empty {V} : t V := [].

Fixpoint find {V} (k : string) (m : t V) : option V :=
  match m with
  | [] => None
  | (k', v) :: rest => if String.eqb k k' then Some v else find k rest
  end.

(** [map.get(key)] where the key may be [null] or [undefined]: only
    strings are ever stored as keys. *)
Definition get {V} (key : nullable string) (m : t V) : option V :=
  match key with
  | Val k => find k m
  | _ => None
  end.

(** [map.set(k, v)]: a present key keeps its place. *)
Fixpoint set {V} (k : string) (v : V) (m : t V) : t V :=
  match m with
  | [] => [(k, v)]
  | (k', v') :: rest =>
      if String.eqb k k' then (k, v) :: rest else (k', v') :: set k v rest
  end.

(** [Array.from(map.keys())]. *)
Definition keys {V} (m : t V) : list string := m.*1.

Definition size {V} (m : t V) : nat := length m.

End StringMap.

(* ================================================================== *)
(** * Effects: external services, log, exceptions *)
(* ================================================================== *)

Module Effects.
Import Number JS.

(** The chat-model clients of the LangChain SDK, by their constructor
    arguments. *)
Inductive Client : Type :=
| ChatOpenAI (openAIApiKey : string) (modelName temperature maxTokens : value)
| ChatAnthropic (anthropicApiKey : string) (modelName temperature maxTokens : value)
| ChatBedrockConverse (model temperature maxTokens region : value)
    (accessKeyId secretAccessKey : string).

(** A document of the vector store with its relevance score, as the
    adapter returns them: the content is a string, the score a number,
    and the [source] label, when present, a string. *)
Record Metadata : Type := { source : nullable string }.
Record Document : Type := { pageContent : string; metadata : nullable Metadata }.
Definition ScoredChunk : Type := Document * number.

(** What a run does to the outside, in order. *)
Inductive event : Type :=
| LogInfo (msg : string)
| LogError (msg : string) (error : exn)
| Searched (query : string) (k : nullable number)
| Invoked (llm : Client) (prompt : string).

(** A computation: the events it performed and how it ended. *)
Definition M (A : Type) : Type := list event * result A.

Definition ret {A} (a : A) : M A := ([], inr a).
Definition throw {A} (e : exn) : M A := ([], inl e).
Definition lift {A} (r : result A) : M A := ([], r).
Definition emit (ev : event) : M unit := ([ev], inr tt).

Definition bind {A B} (m : M A) (k : A -> M B) : M B :=
  match m with
  | (t, inl e) => (t, inl e)
  | (t, inr a) => let '(t', r) := k a in (t ++ t', r)
  end.

(** [try { m } catch (error) { h error }]. *)
Definition try_catch {A} (m : M A) (h : exn -> M A) : M A :=
  match m with
  | (t, inl e) => let '(t', r) := h e in (t ++ t', r)
  | (t, inr a) => (t, inr a)
  end.

Definition trace {A} (m : M A) : list event := m.1.
Definition outcome {A} (m : M A) : result A := m.2.

Module Notations.
Notation "x <- m ;; k" := (bind m (fun x => k))
  (at level 100, m at next level, right associativity).
Notation "m ;;; k" := (bind m (fun _ => k))
  (at level 100, right associativity).
End Notations.

(** The external collaborators of one request. *)
Record World : Type := {
(** [vectorStore.similaritySearchWithScore(query, k)] *)
similaritySearchWithScore :
  string -> nullable number -> result (nullable (list ScoredChunk));
(** the prompt piped through a client and the string output parser *)
invoke : Client -> string -> result string;
(** [new Date().toISOString()] *)
now : string
}.

(** The searches and the model calls of a trace. *)
Definition searches (t : list event) : list (string * nullable number) :=
  omap (fun ev => match ev with Searched q k => Some (q, k) | _ => None end) t.

Definition invocations (t : list event) : list (Client * string) :=
  omap (fun ev => match ev with Invoked c p => Some (c, p) | _ => None end) t.

End Effects.

(* ================================================================== *)
(** * llmProvider.js *)
(* ================================================================== *)

Module LLMProviderService.
Import Number JS Effects Effects.Notations.

(** [config.llm] of [config/index.js]: the fields the service reads.
    The module itself is not among the sources; credentials come from
    the environment and may be absent. *)
Record LLMConfig : Type := {
  openai_apiKey : nullable string;
  openai_model : value;
  anthropic_apiKey : nullable string;
  anthropic_model : value;
  bedrock_accessKeyId : nullable string;
  bedrock_secretAccessKey : nullable string;
  bedrock_model : value;
  bedrock_region : value;
  temperature : value;
  maxTokens : value;
  defaultProvider : nullable string
}.

Definition Providers : Type := StringMap.t Client.

Definition no_providers : string :=
  "No LLM providers could be initialized. Check your configuration.".

(** [initializeProviders()], run by the constructor: the registry, or
    the error when no credentials are configured. *)
Definition initializeProviders (config : LLMConfig) : M Providers :=
  try_catch
    (let providers : Providers := StringMap.empty in
     providers <-
       (if truthy (openai_apiKey config) then
          emit (LogInfo "OpenAI provider initialized") ;;;
          ret (StringMap.set "openai"
                 (ChatOpenAI (show (openai_apiKey config)) (openai_model config)
                    (temperature config) (maxTokens config)) providers)
        else ret providers) ;;
     providers <-
       (if truthy (anthropic_apiKey config) then
          emit (LogInfo "Anthropic provider initialized") ;;;
          ret (StringMap.set "anthropic"
                 (ChatAnthropic (show (anthropic_apiKey config)) (anthropic_model config)
                    (temperature config) (maxTokens config)) providers)
        else ret providers) ;;
     providers <-
       (if truthy (bedrock_accessKeyId config) && truthy (bedrock_secretAccessKey config) then
          emit (LogInfo "Bedrock provider initialized") ;;;
          ret (StringMap.set "bedrock"
                 (ChatBedrockConverse (bedrock_model config) (temperature config)
                    (maxTokens config) (bedrock_region config)
                    (show (bedrock_accessKeyId config))
                    (show (bedrock_secretAccessKey config))) providers)
        else ret providers) ;;
     if (StringMap.size providers =? 0)%nat then throw (Error no_providers)
     else ret providers)
    (fun error =>
       emit (LogError "Error initializing LLM providers:" error) ;;;
       throw error).

Section Registry.
Variable config : LLMConfig.
Variable providers : Providers.

Definition not_available (providerName : nullable string) : string :=
  "LLM provider '" +:+ show providerName
    +:+ "' not available. Available providers: "
    +:+ Str.join ", " (StringMap.keys providers).

(** [getProvider(providerName = config.llm.defaultProvider)] *)
Definition getProvider (providerName : nullable string) : result Client :=
  let providerName := default_param providerName (defaultProvider config) in
  match StringMap.get providerName providers with
  | Some provider => inr provider
  | None => inl (Error (not_available providerName))
  end.

(** [getAvailableProviders()] *)
Definition getAvailableProviders : list string := StringMap.keys providers.

End Registry.

End LLMProviderService.

(* ================================================================== *)
(** * ragService.js *)
(* ================================================================== *)

Module RAGService.
Import Number JS Effects Effects.Notations LLMProviderService.

Definition nl : string := String (ascii_of_nat 10) EmptyString.

(** [this.systemPrompt], cut at its two placeholders. *)
Definition systemPrompt_head : string :=
"You are AI Chatbot specializing in OpenTelemetry (OTel) integration and implementation. 
Your role is to help developers understand and implement OpenTelemetry instrumentation in their applications.

## Your application architecture is as follows:
### Frontend
Frontend (/client)
Modern React application
Real-time chat interface
Provider selection component
Message streaming support
API service layer for backend communication

#### Key Dependencies of Frontend
The project is using modern JavaScript (ES6+) with JSX syntax
Modern ES6+ module imports/exports
react-router-dom (v6.20.1) for routing
axios (v1.6.2) for HTTP requests
react-markdown (v9.0.1) for markdown rendering
react-syntax-highlighter (v15.5.0) for code highlighting
react-icons (v4.12.0) for icon components
OpenTelemetry related packages for web monitoring

### Backend (/server)
Express.js server with modular architecture
Comprehensive middleware (auth, validation, rate limiting)
Robust error handling and logging
API routes for chat and admin functions
Service layer for business logic

#### Key Dependencies of Backend
Node.js with Express.js framework
Uses ES Modules (type: " +:+ Str.dquote +:+
"module" +:+ Str.dquote +:+
" in package.json)
Modern JavaScript (ES6+) with async/await patterns
Class-based architecture for server setup
LangChain ecosystem (@langchain/core, @langchain/openai, etc.)
ChromaDB for vector storage
Express middleware (cors, helmet, rate-limit)
Winston for logging
Various AI provider SDKs (OpenAI, Anthropic, AWS)

### Services
llmProvider.js: Manages multiple AI provider integrations
vectorStore.js: Handles ChromaDB interactions
ragService.js: Implements RAG functionality
Various middleware services for security and validation

### Data Management
Uses ChromaDB for vector storage
Includes data ingestion scripts
Supports custom documentation ingestion
Pre-loaded with OpenTelemetry documentation

## Context:
You have access to comprehensive documentation about OpenTelemetry, including:
- Installation and setup guides
- Instrumentation examples for various frameworks and libraries
- Best practices and configuration options
- Troubleshooting guides
- Code snippets and examples

## Instructions:
1. Provide accurate, practical, and actionable advice based on the provided context
2. Include relevant code examples when appropriate
3. Explain concepts clearly and concisely
4. If the context doesn't contain enough information, acknowledge this and provide general guidance
5. Focus on helping users implement OTel successfully in their specific use case
6. Always prioritize official OpenTelemetry documentation and best practices

Context information:
".

Definition systemPrompt_mid : string := nl +:+ nl +:+ "User question: ".

Definition systemPrompt_tail : string :=
  nl +:+ nl +:+ "Provide a helpful, accurate response based on the context above. think deeply and verify as much as possible.:".

(** [this.promptTemplate] filled with [{context, question}]. *)
Definition format_prompt (context question : string) : string :=
  systemPrompt_head +:+ context +:+ systemPrompt_mid +:+ question +:+ systemPrompt_tail.

Definition no_context : string :=
  "No relevant context found in the knowledge base.".

Definition separator : string := nl +:+ nl +:+ "---" +:+ nl +:+ nl.

(** [doc.metadata?.source] *)
Definition source_of (doc : Document) : nullable string :=
  match metadata doc with
  | Val md => source md
  | _ => Undefined
  end.

(** [doc.metadata?.source || 'unknown'] *)
Definition source_or_unknown (doc : Document) : string :=
  if truthy (source_of doc) then show (source_of doc) else "unknown".

Definition format_chunk (chunk : ScoredChunk) : string :=
  let '(doc, score) := chunk in
  let source := source_or_unknown doc in
  let content := pageContent doc in
  "Source: " +:+ source +:+ " (Relevance: " +:+ toFixed score 3 +:+ ")"
    +:+ nl +:+ content.

(** [formatContext(relevantDocs)] *)
Definition formatContext (relevantDocs : nullable (list ScoredChunk)) : string :=
  match relevantDocs with
  | Undefined | Null => no_context
  | Val docs =>
      if (length docs =? 0)%nat then no_context
      else Str.join separator (format_chunk <$> docs)
  end.

(** The body of the [forEach] callback of [extractSources]. *)
Definition add_source (sources : StringSet.t) (chunk : ScoredChunk) : StringSet.t :=
  let source := source_of chunk.1 in
  if truthy source then StringSet.add (show source) sources else sources.

(** [extractSources(relevantDocs)] *)
Definition extractSources (relevantDocs : nullable (list ScoredChunk))
  : result (list string) :=
  match deref relevantDocs "forEach" with
  | inl e => inl e
  | inr docs => inr (StringSet.to_array (foldl add_source StringSet.empty docs))
  end.

(** One entry of [relevanceScores]. *)
Definition relevance_entry (chunk : ScoredChunk) : value :=
  let '(doc, score) := chunk in
  VObject [("source", VString (source_or_unknown doc)); ("score", VNumber score)].

(** The options object of [askQuestion]. *)
Record Options : Type := {
  provider : nullable string;
  maxContextDocs : nullable number;
  includeContext : nullable bool
}.


Definition five : nullable number := Val (Finite false 5 0).

Section Service.
Variable config : LLMConfig.
Variable providers : Providers.
Variable world : World.

Definition search (question : string) (k : nullable number)
  : M (nullable (list ScoredChunk)) :=
  emit (Searched question k) ;;;
  lift (similaritySearchWithScore world question k).

Definition call_llm (llm : Client) (prompt : string) : M string :=
  emit (Invoked llm prompt) ;;;
  lift (invoke world llm prompt).

(** [providerName || llmProvider.getAvailableProviders()[0]] *)
Definition provider_label (providerName : nullable string) : value :=
  if truthy providerName then of_nullable providerName
  else match getAvailableProviders providers with
       | first :: _ => VString first
       | [] => VUndefined
       end.

(** [generateResponse(question, providerName = null, maxContextDocs = 5)] *)
Definition generateResponse (question : string) (providerName : nullable string)
    (maxContextDocs : nullable number) : M value :=
  let providerName := default_param providerName Null in
  let maxContextDocs := default_param maxContextDocs five in
  try_catch
    (emit (LogInfo ("Generating response for question: "
                      +:+ Str.dquote +:+ question +:+ Str.dquote)) ;;;
     llm <- lift (getProvider config providers providerName) ;;
     relevantDocs <- search question maxContextDocs ;;
     let context := formatContext relevantDocs in
     llmResponse <- call_llm llm (format_prompt context question) ;;
     emit (LogInfo "Response generated successfully") ;;;
     docs <- lift (deref relevantDocs "length") ;;
     sources <- lift (extractSources relevantDocs) ;;
     ret (VObject
            [("response", VString llmResponse);
             ("context",
               VObject
                 [("documentsUsed", VNumber (of_nat (length docs)));
                  ("sources", VArray (VString <$> sources));
                  ("relevanceScores", VArray (relevance_entry <$> docs))]);
             ("metadata",
               VObject
                 [("question", VString question);
                  ("provider", provider_label providerName);
                  ("timestamp", VString (now world))])]))
    (fun error =>
       emit (LogError "Error generating RAG response:" error) ;;;
       throw error).

(** The file holds a second edition of the class, which differs in
    [generateResponse] only: the chunks are searched and formatted
    first, the provider is looked up afterwards. *)
Definition generateResponse' (question : string) (providerName : nullable string)
    (maxContextDocs : nullable number) : M value :=
  let providerName := default_param providerName Null in
  let maxContextDocs := default_param maxContextDocs five in
  try_catch
    (emit (LogInfo ("Generating response for question: "
                      +:+ Str.dquote +:+ question +:+ Str.dquote)) ;;;
     relevantDocs <- search question maxContextDocs ;;
     let context := formatContext relevantDocs in
     llm <- lift (getProvider config providers providerName) ;;
     response <- call_llm llm (format_prompt context question) ;;
     emit (LogInfo "Response generated successfully") ;;;
     docs <- lift (deref relevantDocs "length") ;;
     sources <- lift (extractSources relevantDocs) ;;
     ret (VObject
            [("response", VString response);
             ("context",
               VObject
                 [("documentsUsed", VNumber (of_nat (length docs)));
                  ("sources", VArray (VString <$> sources));
                  ("relevanceScores", VArray (relevance_entry <$> docs))]);
             ("metadata",
               VObject
                 [("question", VString question);
                  ("provider", provider_label providerName);
                  ("timestamp", VString (now world))])]))
    (fun error =>
       emit (LogError "Error generating RAG response:" error) ;;;
       throw error).

(** [askQuestion(question, options = {})] *)
Definition askQuestion (question : string) (options : Options) : M value :=
  let provider := default_param (provider options) Null in
  let maxContextDocs := default_param (maxContextDocs options) five in
  let includeContext := default_param (includeContext options) (Val false) in
  try_catch
    (result <- generateResponse question provider maxContextDocs ;;
     match includeContext with
     | Val true => ret result
     | _ =>
         ret (VObject
                [("response", get "response" result);
                 ("sources", get "sources" (get "context" result));
                 ("metadata",
                   VObject
                     [("provider", get "provider" (get "metadata" result));
                      ("timestamp", get "timestamp" (get "metadata" result))])])
     end)
    (fun error =>
       emit (LogError "Error in askQuestion:" error) ;;;
       throw (Error ("Failed to generate response: " +:+ message error))).

(** [getContextForQuestion(question, maxDocs = 5)] *)
Definition getContextForQuestion (question : string) (maxDocs : nullable number)
  : M value :=
  let maxDocs := default_param maxDocs five in
  try_catch
    (relevantDocs <- search question maxDocs ;;
     let context := formatContext relevantDocs in
     sources <- lift (extractSources relevantDocs) ;;
     docs <- lift (deref relevantDocs "length") ;;
     ret (VObject
            [("context", VString context);
             ("sources", VArray (VString <$> sources));
             ("documentCount", VNumber (of_nat (length docs)))]))
    (fun error =>
       emit (LogError "Error getting context for question:" error) ;;;
       throw error).

End Service.

End RAGService.

(* ================================================================== *)
(** * The properties, as statements *)
(* ================================================================== *)

Module Props.
Import Str Number JS Effects LLMProviderService RAGService.

(** The position of the first chunk whose source is [s]. *)
Definition first_seen (s : string) (docs : list ScoredChunk) : option nat :=
  fst <$> list_find (fun chunk : ScoredChunk => source_of chunk.1 = Val s) docs.

(** [sources] lists its elements in the order in which they first
    appear among the chunks. *)
Definition in_first_seen_order (docs : list ScoredChunk) (sources : list string) : Prop :=
  forall (i j : nat) (s t : string),
    sources !! i = Some s -> sources !! j = Some t -> (i < j)%nat ->
    exists a b : nat,
      first_seen s docs = Some a /\ first_seen t docs = Some b /\ (a < b)%nat.

(** [extractSources] returns, once each and in first-seen order, the
    sources of the chunks that are [counted]. *)
Definition distinct_sources (counted : string -> Prop) (docs : list ScoredChunk) : Prop :=
  exists sources : list string,
    extractSources (Val docs) = inr sources
    /\ NoDup sources
    /\ (forall s : string,
          s ∈ sources <->
          counted s /\ exists chunk : ScoredChunk, chunk ∈ docs /\ source_of chunk.1 = Val s)
    /\ in_first_seen_order docs sources.

(** The ordered-distinct sequence of a list: every element at its
    first occurrence. *)
Fixpoint ordered_distinct (l : list string) : list string :=
  match l with
  | [] => []
  | x :: rest => x :: filter (fun y => y <> x) (ordered_distinct rest)
  end.

(** The source label a chunk contributes, if any. *)
Definition label (chunk : ScoredChunk) : option string :=
  if truthy (source_of chunk.1) then Some (show (source_of chunk.1)) else None.

(** The source labels of the chunks, in chunk order, without the
    chunks that have none. *)
Definition labels (docs : list ScoredChunk) : list string := omap label docs.

(** "A missing source shows as the literal unknown in [sources]". *)
Definition missing_source_listed_unknown (docs : list ScoredChunk) : Prop :=
  forall chunk : ScoredChunk,
    chunk ∈ docs -> is_missing (source_of chunk.1) = true ->
    exists sources : list string,
      extractSources (Val docs) = inr sources /\ "unknown" ∈ sources.

(** The header and content of one chunk inside the context. *)
Definition chunk_text (chunk : ScoredChunk) : string :=
  "Source: " +:+ source_or_unknown chunk.1
    +:+ " (Relevance: " +:+ toFixed chunk.2 3 +:+ ")" +:+ nl
    +:+ pageContent chunk.1.

(** The score of the chunk is printed with exactly three decimals. *)
Definition three_decimals (chunk : ScoredChunk) : Prop :=
  exists (negative : bool) (n : Z), fixed_decimals 3 negative n (toFixed chunk.2 3).

(** "Every chunk is a header with source and three-decimal score, then
      the content, the chunks joined by the separator". *)
Definition context_layout (docs : list ScoredChunk) : Prop :=
  formatContext (Val docs) = Str.join separator (chunk_text <$> docs)
  /\ Forall three_decimals docs.

(** The log line that opens a request. *)
Definition opening (question : string) : event :=
  LogInfo ("Generating response for question: " +:+ dquote +:+ question +:+ dquote).

(** The full payload of a request, from its parts. *)
Definition payload (question : string) (provider timestamp : value)
    (docs : list ScoredChunk) (sources : list string) (answer : string) : value :=
  VObject
    [("response", VString answer);
     ("context",
       VObject
         [("documentsUsed", VNumber (of_nat (length docs)));
          ("sources", VArray (VString <$> sources));
          ("relevanceScores", VArray (relevance_entry <$> docs))]);
     ("metadata",
       VObject
         [("question", VString question);
          ("provider", provider);
          ("timestamp", timestamp)])].

(** The simplified payload, from its parts. *)
Definition simplified (provider timestamp : value) (sources : list string)
    (answer : string) : value :=
  VObject
    [("response", VString answer);
     ("sources", VArray (VString <$> sources));
     ("metadata", VObject [("provider", provider); ("timestamp", timestamp)])].

(** The answer of [getContextForQuestion], from its parts. *)
Definition context_report (docs : list ScoredChunk) (sources : list string) : value :=
  VObject
    [("context", VString (formatContext (Val docs)));
     ("sources", VArray (VString <$> sources));
     ("documentCount", VNumber (of_nat (length docs)))].

Section Requests.
Variable config : LLMConfig.
Variable providers : Providers.
Variable world : World.

(** "With [includeContext] the result carries [context] as the
        formatted string, [relevanceScores] and [documentsUsed]; without
        it neither [context] nor [relevanceScores]". *)
Definition context_fields_as_documented (question : string) (options : Options)
    (docs : list ScoredChunk) : Prop :=
  forall result : value,
    outcome (askQuestion config providers world question options) = inr result ->
    match includeContext options with
    | Val true =>
        get "context" result = VString (formatContext (Val docs))
        /\ get "relevanceScores" result = VArray (relevance_entry <$> docs)
        /\ has "documentsUsed" result = true
    | _ => has "context" result = false /\ has "relevanceScores" result = false
    end.

(** "A failing search ends the request with the message of the
        failure itself, after a single search". *)
Definition search_failure_propagated_verbatim (question : string) (options : Options)
    (failure : exn) : Prop :=
  let run := askQuestion config providers world question options in
  exists error : exn,
    outcome run = inl error
    /\ message error = message failure
    /\ length (searches (trace run)) = 1%nat
    /\ invocations (trace run) = [].

End Requests.

End Props.

(** Sample data: the chunk of the documented scenario and a few others. *)
Module Sample.
Import Number JS Effects LLMProviderService RAGService.

Definition doc (content : string) (src : nullable string) : Document :=
  {| pageContent := content; metadata := Val {| source := src |} |}.

Definition otel_chunk : ScoredChunk :=
  (doc "Use NodeSDK to start tracing." (Val "otel-docs"), d0_87).

Definition blog_chunk : ScoredChunk :=
  (doc "Add custom spans." (Val "blog"), Finite false 3 (-2)).

Definition unlabelled_chunk : ScoredChunk :=
  (doc "Export over OTLP." Undefined, Finite false 1 (-1)).

Definition empty_label_chunk : ScoredChunk :=
  (doc "Sampling keeps cost down." (Val ""), Finite false 1 (-2)).

Definition nan_chunk : ScoredChunk :=
  (doc "Collector pipelines." (Val "otel-docs"), NaN).

Definition openai : Client :=
  ChatOpenAI "sk-test" (VString "gpt-4") (VNumber (Finite false 7 (-3))) (VNumber (of_nat 1000)).

Definition anthropic : Client :=
  ChatAnthropic "sk-ant" (VString "claude") (VNumber (Finite false 7 (-3))) (VNumber (of_nat 1000)).

Definition config : LLMConfig :=
  {| openai_apiKey := Val "sk-test";
     openai_model := VString "gpt-4";
     anthropic_apiKey := Val "sk-ant";
     anthropic_model := VString "claude";
     bedrock_accessKeyId := Undefined;
     bedrock_secretAccessKey := Undefined;
     bedrock_model := VUndefined;
     bedrock_region := VUndefined;
     temperature := VNumber (Finite false 7 (-3));
     maxTokens := VNumber (of_nat 1000);
     defaultProvider := Val "openai" |}.

Definition providers : Providers := [("openai", openai); ("anthropic", anthropic)].

(** A world whose vector store answers every search with [found] and
    whose models always answer ["It depends."]. *)
Definition world (found : result (nullable (list ScoredChunk))) : World :=
  {| similaritySearchWithScore := fun _ _ => found;
     invoke := fun _ _ => inr "It depends.";
     now := "2024-05-01T12:00:00.000Z" |}.

(** The question of the documented scenario. *)
Definition tracing : string := "How do I start tracing?".

Definition with_provider (name : string) (full : bool) : Options :=
  {| provider := Val name; maxContextDocs := Undefined; includeContext := Val full |}.

End Sample.

(* ================================================================== *)
(** * llmProvider.js: the smoke test *)
(* ================================================================== *)

Module ProviderTest.
Import Number JS Effects Effects.Notations LLMProviderService.



Section Test.
Variable config : LLMConfig.
Variable providers : Providers.

(** [provider.invoke([{ role: 'user', content }])] and the [content] of
    its answer. *)
Variable chat : Client -> string -> result string.


End Test.

End ProviderTest.

(* ================================================================== *)
(** * routes/chat.js *)
(* ================================================================== *)

Module ChatRoutes.
Import Number JS Effects Effects.Notations LLMProviderService RAGService ProviderTest.

(** The JSON envelope of a reply, told apart by its [success] field:
    [{ success: true, data }] and [{ success: false, error, message }],
    the latter without [message] in the replies to a bad request. *)
Inductive Body (A : Type) : Type :=
| Success (data : A)
| Failure (error : string) (message : nullable string).
Global Arguments Success {A} data.
Global Arguments Failure {A} error message.

(** What a handler sends: [res.status(code).json(body)], with 200 for a
    plain [res.json(body)]. *)
Record Reply (A : Type) : Type := { status : nat; body : Body A }.
Global Arguments status {A} _.
Global Arguments body {A} _.

Definition ok {A} (data : A) : Reply A := {| status := 200; body := Success data |}.
Definition bad_request {A} (error : string) : Reply A :=
  {| status := 400; body := Failure error Undefined |}.
Definition server_error {A} (error : string) (cause : exn) : Reply A :=
  {| status := 500; body := Failure error (Val (message cause)) |}.

(** [req.body] of [POST /api/chat], after the validation middleware. *)
Record ChatBody : Type := {
  chat_message : string;
  chat_provider : nullable string;
  chat_maxContextDocs : nullable number;
  chat_includeContext : nullable bool
}.

(** [req.query] of [GET /api/chat/context]. *)
Record ContextQuery : Type := {
  query_question : nullable string;
  query_maxDocs : nullable string
}.

(** The data of [GET /api/chat/providers]. *)
Record ProvidersData : Type := {
  data_providers : list string;
  data_default : nullable string
}.

Section Handlers.
Variable config : LLMConfig.
Variable providers : Providers.
Variable world : World.
Variable chat : Client -> string -> result string.

(** [parseInt(text)] of the runtime. *)
Variable parseInt : string -> number.

(** [router.post('/')] *)
Definition post_chat (body : ChatBody) : M (Reply value) :=
  try_catch
    (let message := chat_message body in
     let provider := default_param (chat_provider body) Null in
     let maxContextDocs := default_param (chat_maxContextDocs body) five in
     let includeContext := default_param (chat_includeContext body) (Val false) in
     emit (LogInfo ("Chat request received: " +:+ Str.dquote +:+ message +:+ Str.dquote
                      +:+ " with provider: "
                      +:+ (if truthy provider then show provider else "default"))) ;;;
     result <- askQuestion config providers world message
                 {| provider := provider;
                    maxContextDocs := maxContextDocs;
                    includeContext := includeContext |} ;;
     ret (ok result))
    (fun error =>
       emit (LogError "Error in chat endpoint:" error) ;;;
       ret (server_error "Failed to generate response" error)).

(** [router.get('/context')]; the default [maxDocs = 5] reaches
    [parseInt] as the text ["5"]. *)
Definition get_context (query : ContextQuery) : M (Reply value) :=
  try_catch
    (let question := query_question query in
     let maxDocs := default_param (query_maxDocs query) (Val "5") in
     if negb (truthy question) then ret (bad_request "Question parameter is required")
     else
       context <- getContextForQuestion world (show question)
                    (Val (parseInt (show maxDocs))) ;;
       ret (ok context))
    (fun error =>
       emit (LogError "Error getting context:" error) ;;;
       ret (server_error "Failed to retrieve context" error)).

(** [router.get('/providers')] *)
Definition get_providers : M (Reply ProvidersData) :=
  try_catch
    (let providers := getAvailableProviders providers in
     let default_provider := defaultProvider config in
     ret (ok {| data_providers := providers;
                data_default := if truthy default_provider then default_provider else Null |}))
    (fun error =>
       emit (LogError "Error getting providers:" error) ;;;
       ret (server_error "Failed to get providers" error)).


End Handlers.

End ChatRoutes.

(* ================================================================== *)
(** * Further statements and sample data *)
(* ================================================================== *)

Module MoreProps.
Import Str Number JS Effects LLMProviderService RAGService Props.


(** The simplified view of a full payload. *)
Definition project (result : value) : value :=
  VObject
    [("response", get "response" result);
     ("sources", get "sources" (get "context" result));
     ("metadata",
       VObject
         [("provider", get "provider" (get "metadata" result));
          ("timestamp", get "timestamp" (get "metadata" result))])].

(** The error [askQuestion] throws for a cause. *)
Definition wrapped (cause : exn) : exn :=
  Error ("Failed to generate response: " +:+ message cause).

End MoreProps.

Module RouteStatements.
Import JS RAGService ChatRoutes.

(** The options [POST /api/chat] asks with, before the defaults. *)
Definition options_of (body : ChatBody) : Options :=
  {| provider := chat_provider body;
     maxContextDocs := chat_maxContextDocs body;
     includeContext := chat_includeContext body |}.

End RouteStatements.

Module MoreSample.
Import Number JS Effects LLMProviderService RAGService.

(** A world whose vector store answers with [found] and whose models
    are out of quota. *)
Definition quota_world (found : result (nullable (list ScoredChunk))) : World :=
  {| similaritySearchWithScore := fun _ _ => found;
     invoke := fun _ _ => inl (Error "quota exceeded");
     now := "2024-05-01T12:00:00.000Z" |}.

(** A configuration with the Anthropic key only, and half of the
    Bedrock credentials. *)
Definition anthropic_only : LLMConfig :=
  {| openai_apiKey := Undefined;
     openai_model := VString "gpt-4";
     anthropic_apiKey := Val "sk-ant";
     anthropic_model := VString "claude";
     bedrock_accessKeyId := Val "AKIA";
     bedrock_secretAccessKey := Val "";
     bedrock_model := VUndefined;
     bedrock_region := VUndefined;
     temperature := VNumber (Finite false 7 (-3));
     maxTokens := VNumber (of_nat 1000);
     defaultProvider := Val "openai" |}.

(** A test call that every model answers, and one that none does. *)
Definition chat_ok : Client -> string -> result string := fun _ _ => inr "Hello!".
Definition chat_down : Client -> string -> result string :=
  fun _ _ => inl (Error "401 Unauthorized").

End MoreSample.

(* ================================================================== *)
(** * middleware/auth.js and middleware/validation.js *)
(* ================================================================== *)

Module Middleware.
Import JS.

(** What a middleware does with a request: hand it on with [next()],
    or answer it with [res.status(code).json({ error, details })]
    ([details] is absent in some answers). *)
Inductive Step : Type :=
| Next
| Rejected (status : nat) (error : string) (details : nullable string).

(** [validateApiKey(req, res, next)], from [process.env.API_KEY], the
    [x-api-key] header and [req.ip]: the warnings it logs and what it
    does with the request. *)
Definition validateApiKey (API_KEY : nullable string) (header : nullable string)
    (ip : string) : list string * Step :=
  let apiKey := header in
  if negb (truthy API_KEY) then ([], Next)
  else if negb (truthy apiKey) || negb (bool_decide (apiKey = API_KEY)) then
    (["Invalid or missing API key from IP: " +:+ ip],
     Rejected 401 "Invalid or missing API key" Undefined)
  else ([], Next).

(** An uploaded file: its size in bytes and its media type. *)
Record File : Type := { size : N; mimetype : string }.

Definition maxSize : N := 5 * 1024 * 1024.

Definition allowedTypes : list string :=
  ["text/plain"; "application/pdf"; "text/html"; "text/markdown"].

(** [req.files[0]]: [undefined] on an empty array. *)
Definition first_file (files : list File) : nullable File :=
  match files with
  | file :: _ => Val file
  | [] => Undefined
  end.

(** [validateFileUpload(req, res, next)], from [req.file] and
    [req.files]. *)
Definition validateFileUpload (file : nullable File) (files : nullable (list File))
    : result Step :=
  if is_missing file && is_missing files then inr Next
  else
    let file : nullable File :=
      match file with
      | Val _ => file
      | _ => match files with
             | Val list => first_file list
             | Undefined => Undefined
             | Null => Null
             end
      end in
    match deref file "size" with
    | inl error => inl error
    | inr file =>
        if (maxSize <? size file)%N then
          inr (Rejected 400 "File too large" (Val "File size must be less than 5MB"))
        else if negb (bool_decide (mimetype file ∈ allowedTypes)) then
          inr (Rejected 400 "Invalid file type"
                 (Val "Only text, PDF, HTML, and Markdown files are allowed"))
        else inr Next
    end.

End Middleware.

(* ================================================================== *)
(** * Documents on their way into the store *)
(* ================================================================== *)

Module Ingestion.
Import Str Number JS Effects Effects.Notations ChatRoutes.

(** An object literal with a spread, [{ ...fields, ...extra }]: the
    fields of [extra] are assigned in order, a present key keeps its
    place and takes the new value. *)
Definition spread (fields extra : list (string * value)) : list (string * value) :=
  foldl (fun object '(k, v) => StringMap.set k v object) fields extra.

(** [...metadata] when the metadata may be absent. *)
Definition own_fields (metadata : nullable (list (string * value))) : list (string * value) :=
  match metadata with
  | Val fields => fields
  | _ => []
  end.

(** [new Document({ pageContent, metadata })] *)
Record NewDocument : Type := {
  new_pageContent : string;
  new_metadata : list (string * value)
}.

(** ** scripts/ingest-data.js *)

(** An entry of [this.sampleDocuments]. *)
Record SampleDocument : Type := {
  sample_title : string;
  sample_content : string;
  sample_source : string;
  sample_metadata : nullable (list (string * value))
}.

(** [`doc-${Date.now()}-${index}`] *)
Definition documentId (now_ms : N) (index : nat) : string :=
  "doc-" +:+ of_chars (digits (Z.of_N now_ms)) +:+ "-"
    +:+ of_chars (digits (Z.of_nat index)).

(** [processDocument(doc, index)], with the two readings of the clock:
    [Date.now()] and [new Date().toISOString()]. *)
Definition processDocument (now_ms : N) (now_iso : string) (doc : SampleDocument)
    (index : nat) : NewDocument :=
  let documentId := documentId now_ms index in
  {| new_pageContent := sample_content doc;
     new_metadata :=
       spread
         [("id", VString documentId);
          ("title", VString (sample_title doc));
          ("source", VString (sample_source doc));
          ("ingestedAt", VString now_iso);
          ("document_id", VString documentId)]
         (own_fields (sample_metadata doc)) |}.

(** [this.sampleDocuments.map((doc, index) => this.processDocument(doc,
    index))]; [clock index] is what the clock reads in call [index]. *)
Definition processDocuments (clock : nat -> N * string) (docs : list SampleDocument)
    : list NewDocument :=
  imap (fun index doc => processDocument (clock index).1 (clock index).2 doc index) docs.

(** The summary [ingestSampleDocuments] returns. *)
Record Summary : Type := { documentsIngested : nat; chunksCreated : N }.

(** [ingestSampleDocuments()], over [vectorStore.addDocuments]. *)
Definition ingestSampleDocuments (addDocuments : list NewDocument -> result N)
    (clock : nat -> N * string) (sampleDocuments : list SampleDocument) : M Summary :=
  try_catch
    (emit (LogInfo "Starting ingestion of sample OpenTelemetry documents...") ;;;
     let documents := processDocuments clock sampleDocuments in
     totalChunks <- lift (addDocuments documents) ;;
     emit (LogInfo ("Successfully ingested "
                      +:+ of_chars (digits (Z.of_nat (length documents)))
                      +:+ " documents ("
                      +:+ of_chars (digits (Z.of_N totalChunks))
                      +:+ " chunks) into vector store")) ;;;
     ret {| documentsIngested := length documents; chunksCreated := totalChunks |})
    (fun error =>
       emit (LogError "Error ingesting sample documents:" error) ;;;
       throw error).

(** ** routes/admin.js: [POST /api/admin/ingest] *)

(** [req.body] after the validation middleware. *)
Record IngestBody : Type := {
  ingest_url : nullable string;
  ingest_content : nullable string;
  ingest_title : string;
  ingest_source : string;
  ingest_metadata : nullable (list (string * value))
}.

(** The [data] of the answer. *)
Record IngestData : Type := {
  data_title : string;
  data_source : string;
  data_chunksAdded : N;
  data_message : string
}.

(** The document the handler builds. *)
Definition document_of (now_iso : string) (body : IngestBody) : NewDocument :=
  {| new_pageContent := show (ingest_content body);
     new_metadata :=
       spread
         [("title", VString (ingest_title body));
          ("source", VString (ingest_source body));
          ("url", if truthy (ingest_url body) then of_nullable (ingest_url body) else VNull);
          ("ingestedAt", VString now_iso)]
         (own_fields (default_param (ingest_metadata body) (Val []))) |}.

(** [router.post('/ingest')], over [vectorStore.addDocuments] and the
    clock. *)
Definition post_ingest (addDocuments : list NewDocument -> result N) (now_iso : string)
    (body : IngestBody) : M (Reply IngestData) :=
  try_catch
    (let url := ingest_url body in
     let content := ingest_content body in
     let title := ingest_title body in
     let source := ingest_source body in
     if negb (truthy content) && negb (truthy url) then
       ret (bad_request "Either content or url must be provided")
     else if truthy url && negb (truthy content) then
       ret (bad_request "URL ingestion not implemented. Please provide content directly.")
     else
       let document := document_of now_iso body in
       chunksAdded <- lift (addDocuments [document]) ;;
       emit (LogInfo ("Document ingested: " +:+ title +:+ " ("
                        +:+ of_chars (digits (Z.of_N chunksAdded)) +:+ " chunks)")) ;;;
       ret (ok {| data_title := title;
                  data_source := source;
                  data_chunksAdded := chunksAdded;
                  data_message := "Document successfully ingested" |}))
    (fun error =>
       emit (LogError "Error ingesting document:" error) ;;;
       ret (server_error "Failed to ingest document" error)).

End Ingestion.

(** Sample requests for the middleware and the ingestion paths. *)
Module IngestSample.
Import Number JS Effects ChatRoutes Middleware Ingestion.

Definition notes : File := {| size := 5242880; mimetype := "text/markdown" |}.

Definition express_guide : SampleDocument :=
  {| sample_title := "Node.js Express Auto-instrumentation Setup";
     sample_content := "# Auto-instrumenting Node.js with OpenTelemetry";
     sample_source := "otel-docs";
     sample_metadata := Val [("type", VString "setup"); ("language", VString "javascript")] |}.

Definition workshop_readme : SampleDocument :=
  {| sample_title := "AI workshop";
     sample_content := "# OpenTelemetry AI Chatbot";
     sample_source := "hny-ai-workshop";
     sample_metadata := Val [("type", VString "project")] |}.

(** A clock that stands still. *)
Definition frozen : nat -> N * string :=
  fun _ => (1714564800000%N, "2024-05-01T12:00:00.000Z").


End IngestSample.

(* ================================================================== *)
(** * Lemmas on strings *)
(* ================================================================== *)

Module StrFacts.
Import Str.

Lemma sapp_cons (x : ascii) (a b : string) :
  String x a +:+ b = String x (a +:+ b).
Proof. reflexivity. Qed.

Lemma sapp_nil_l (b : string) : "" +:+ b = b.
Proof. reflexivity. Qed.

Lemma sapp_assoc (a b c : string) : (a +:+ b) +:+ c = a +:+ b +:+ c.
Proof. induction a as [|x a IH]; [done|]. by rewrite !sapp_cons, IH. Qed.

Lemma sapp_nil_r (a : string) : a +:+ "" = a.
Proof. induction a as [|x a IH]; [done|]. by rewrite sapp_cons, IH. Qed.

Lemma slength_app (a b : string) :
  String.length (a +:+ b) = (String.length a + String.length b)%nat.
Proof. induction a as [|x a IH]; [done|]. rewrite sapp_cons. simpl. by rewrite IH. Qed.

Lemma of_chars_app (l k : list ascii) :
  of_chars (l ++ k) = of_chars l +:+ of_chars k.
Proof. induction l as [|x l IH]; [done|]. simpl. by rewrite sapp_cons, IH. Qed.

Lemma length_of_chars (l : list ascii) : String.length (of_chars l) = length l.
Proof. induction l as [|x l IH]; simpl; [done|]. by rewrite IH. Qed.

Lemma contains_refl (s : string) : contains s s.
Proof. exists "", "". by rewrite sapp_nil_r. Qed.

Lemma contains_app_r (x a b : string) : contains x b -> contains x (a +:+ b).
Proof.
  intros (pre & post & ->). exists (a +:+ pre), post. by rewrite sapp_assoc.
Qed.

Lemma contains_app_l (x a b : string) : contains x a -> contains x (a +:+ b).
Proof.
  intros (pre & post & ->). exists pre, (post +:+ b).
  by rewrite !sapp_assoc.
Qed.

Lemma contains_trans (x y z : string) : contains x y -> contains y z -> contains x z.
Proof.
  intros (p1 & q1 & ->) (p2 & q2 & ->).
  exists (p2 +:+ p1), (q1 +:+ q2). by rewrite !sapp_assoc.
Qed.

Lemma join_cons (sep x : string) (l : list string) :
  l <> [] -> join sep (x :: l) = x +:+ sep +:+ join sep l.
Proof. by destruct l. Qed.

(** Every element of the array occurs in the joined string. *)
Lemma join_contains (sep x : string) (l : list string) :
  x ∈ l -> contains x (join sep l).
Proof.
  induction l as [|y l IH]; [by intros ?%elem_of_nil|].
  intros [->|Hx]%elem_of_cons.
  - destruct l; [apply contains_refl|].
    apply contains_app_l, contains_refl.
  - destruct l as [|z l]; [by apply elem_of_nil in Hx|].
    change (contains x (y +:+ sep +:+ join sep (z :: l))).
    by apply contains_app_r, contains_app_r, IH.
Qed.

(** The joined string ends with the joined string of any suffix. *)
Lemma join_app (sep : string) (l k : list string) :
  l <> [] -> k <> [] ->
  join sep (l ++ k) = join sep l +:+ sep +:+ join sep k.
Proof.
  intros Hl Hk. induction l as [|x l IH]; [done|].
  destruct l as [|y l].
  - simpl. by destruct k.
  - change (x +:+ sep +:+ join sep ((y :: l) ++ k) =
            (x +:+ sep +:+ join sep (y :: l)) +:+ sep +:+ join sep k).
    rewrite IH by done. by rewrite !sapp_assoc.
Qed.

End StrFacts.

(* ================================================================== *)
(** * Lemmas on numbers *)
(* ================================================================== *)

Module NumberFacts.
Import Str StrFacts Number.

Lemma NilEmpty_digits (d : Decimal.uint) :
  forallb is_digit (list_ascii_of_string (NilEmpty.string_of_uint d)) = true.
Proof. induction d; simpl; auto. Qed.

Lemma digits_all_digit (n : Z) : forallb is_digit (digits n) = true.
Proof.
  unfold digits. generalize (N.to_uint (Z.to_N n)). intros d.
  destruct d; first [reflexivity | apply (NilEmpty_digits (_ d))].
Qed.

Lemma digits_nonempty (n : Z) : digits n <> [].
Proof.
  unfold digits. generalize (N.to_uint (Z.to_N n)). intros d.
  destruct d; done.
Qed.

Lemma to_uint_nonnil (n : N) : N.to_uint n <> Decimal.Nil.
Proof. destruct n; [done|]. apply DecimalPos.Unsigned.to_uint_nonnil. Qed.

(** Reading the digits of [n] back gives [n]. *)
Lemma decimal_value_digits (n : Z) : decimal_value (digits n) = Some (Z.to_N n).
Proof.
  unfold decimal_value, digits.
  rewrite string_of_list_ascii_of_string.
  rewrite NilZero.usu by apply to_uint_nonnil.
  simpl. by rewrite DecimalN.Unsigned.of_to.
Qed.

(** Leading zeroes do not change the number denoted. *)
Lemma decimal_value_zero (cs : list ascii) :
  cs <> [] -> decimal_value ("0"%char :: cs) = decimal_value cs.
Proof.
  intros Hcs. unfold decimal_value.
  destruct cs as [|c cs]; [done|].
  change (string_of_list_ascii ("0"%char :: c :: cs))
    with (String "0" (string_of_list_ascii (c :: cs))).
  change (string_of_list_ascii (c :: cs)) with (String c (string_of_list_ascii cs)).
  unfold NilZero.uint_of_string.
  change (NilEmpty.uint_of_string (String "0" (String c (string_of_list_ascii cs))))
    with (uint_of_char "0" (NilEmpty.uint_of_string (String c (string_of_list_ascii cs)))).
  by destruct (NilEmpty.uint_of_string (String c (string_of_list_ascii cs))).
Qed.

Lemma decimal_value_pad (k : nat) (cs : list ascii) :
  cs <> [] -> decimal_value (replicate k "0"%char ++ cs) = decimal_value cs.
Proof.
  intros Hcs. induction k as [|k IH]; [done|].
  simpl. rewrite decimal_value_zero; [done|].
  by destruct k, cs.
Qed.

Lemma forallb_replicate_zero (k : nat) :
  forallb is_digit (replicate k "0"%char) = true.
Proof. induction k; simpl; auto. Qed.

(** [scaled_round] is the rounding [toFixed] asks for. *)
Lemma scaled_round_nearest (m : N) (e : Z) (f : nat) :
  nearest_scaled m e f (scaled_round m e f).
Proof.
  unfold nearest_scaled, scaled_round.
  destruct (Z.leb_spec 0 e) as [He|He].
  - rewrite (Z.max_l e 0), (Z.max_r (- e) 0) by lia.
    change (2 ^ 0) with 1. lia.
  - rewrite (Z.max_r e 0), (Z.max_l (- e) 0) by lia.
    change (2 ^ 0) with 1.
    replace (1 - e) with (Z.succ (- e)) by lia.
    rewrite Z.pow_succ_r by lia.
    set (d := 2 ^ (- e)). set (M := Z.of_N m * 10 ^ Z.of_nat f).
    assert (0 < d) by (apply Z.pow_pos_nonneg; lia).
    replace (2 * Z.of_N m * 10 ^ Z.of_nat f) with (2 * M) by (unfold M; lia).
    replace (Z.of_N m * 1 * 10 ^ Z.of_nat f) with M by (unfold M; lia).
    pose proof (Z.div_mod (2 * M + d) (2 * d) ltac:(lia)) as Hdm.
    pose proof (Z.mod_pos_bound (2 * M + d) (2 * d) ltac:(lia)) as Hb.
    set (n := (2 * M + d) / (2 * d)) in *. nia.
Qed.

Lemma scaled_round_nonneg (m : N) (e : Z) (f : nat) : 0 <= scaled_round m e f.
Proof.
  unfold scaled_round. destruct (Z.leb_spec 0 e).
  - assert (0 <= 2 ^ e) by (apply Z.pow_nonneg; lia).
    assert (0 <= 10 ^ Z.of_nat f) by (apply Z.pow_nonneg; lia).
    nia.
  - apply Z.div_pos.
    + assert (0 <= 2 ^ (- e)) by (apply Z.pow_nonneg; lia).
      assert (0 <= 10 ^ Z.of_nat f) by (apply Z.pow_nonneg; lia).
      nia.
    + apply Z.pow_pos_nonneg; lia.
Qed.

(** In the fixed range [toFixed] prints a numeral with exactly [f]
    decimals, which denotes the score rounded at that place. *)
Lemma toFixed_fixed (neg : bool) (m : N) (e : Z) (f : nat) :
  ge_1e21 m e = false -> (0 < f)%nat ->
  fixed_decimals f (is_negative neg m) (scaled_round m e f)
    (toFixed (Finite neg m e) f).
Proof.
  intros Hr Hf. unfold toFixed. rewrite Hr.
  set (n := scaled_round m e f).
  set (ds := if (length (digits n) <=? f)%nat
             then replicate (f + 1 - length (digits n)) "0"%char ++ digits n
             else digits n).
  assert (Hlen : (f < length ds)%nat).
  { unfold ds. destruct (Nat.leb_spec (length (digits n)) f).
    - rewrite length_app, length_replicate. lia.
    - lia. }
  assert (Hdig : forallb is_digit ds = true).
  { unfold ds. destruct (length (digits n) <=? f)%nat.
    - by rewrite forallb_app, forallb_replicate_zero, digits_all_digit.
    - apply digits_all_digit. }
  assert (Hval : decimal_value ds = Some (Z.to_N n)).
  { unfold ds. destruct (length (digits n) <=? f)%nat.
    - rewrite decimal_value_pad by apply digits_nonempty.
      apply decimal_value_digits.
    - apply decimal_value_digits. }
  clearbody ds. destruct f as [|f']; [lia|].
  exists (take (length ds - S f') ds), (drop (length ds - S f') ds).
  rewrite take_drop. split_and!; try done.
  - intros Hnil. apply (f_equal length) in Hnil.
    rewrite length_take in Hnil. simpl in Hnil. lia.
  - rewrite <- (take_drop (length ds - S f') ds), forallb_app in Hdig.
    by apply andb_true_iff in Hdig as [? ?].
  - rewrite length_drop. lia.
  - rewrite <- (take_drop (length ds - S f') ds), forallb_app in Hdig.
    by apply andb_true_iff in Hdig as [? ?].
Qed.

End NumberFacts.

(* ================================================================== *)
(** * Lemmas on the collection of sources *)
(* ================================================================== *)

Module SourcesFacts.
Import Str Number JS Effects LLMProviderService RAGService Props.

Lemma label_Some (chunk : ScoredChunk) (s : string) :
  label chunk = Some s <-> source_of chunk.1 = Val s /\ s <> "".
Proof.
  unfold label, truthy.
  destruct (source_of chunk.1) as [| |[|c x]]; simpl;
    (split; [intros [= <-] | intros [[= <-] ?]]); done.
Qed.

Lemma add_source_label (sources : StringSet.t) (chunk : ScoredChunk) :
  add_source sources chunk =
  match label chunk with
  | Some s => StringSet.add s sources
  | None => sources
  end.
Proof. unfold add_source, label. by destruct (truthy _). Qed.

Lemma first_seen_Some (s : string) (docs : list ScoredChunk) (a : nat) :
  first_seen s docs = Some a ->
  (a < length docs)%nat /\ forall k, first_seen s (docs ++ k) = Some a.
Proof.
  unfold first_seen. intros H.
  destruct (list_find _ docs) as [[i c]|] eqn:E; simplify_eq/=.
  split.
  - apply list_find_Some in E as (Hl & _). by apply lookup_lt_Some in Hl.
  - intros k. by rewrite (list_find_app_l _ _ _ _ _ E).
Qed.

Lemma first_seen_new (s : string) (docs : list ScoredChunk) (chunk : ScoredChunk) :
  (forall c, c ∈ docs -> source_of c.1 <> Val s) ->
  source_of chunk.1 = Val s ->
  first_seen s (docs ++ [chunk]) = Some (length docs).
Proof.
  intros Hnone Hs. unfold first_seen.
  rewrite list_find_app_r.
  - simpl. rewrite decide_True by done. done.
  - apply list_find_None, Forall_forall. auto.
Qed.

(** What the loop of [extractSources] has collected after [docs]. *)
Lemma collected_spec (docs : list ScoredChunk) :
  let sources := foldl add_source StringSet.empty docs in
  NoDup sources
  /\ (forall s, s ∈ sources <-> exists chunk, chunk ∈ docs /\ label chunk = Some s)
  /\ in_first_seen_order docs sources.
Proof.
  unfold StringSet.empty.
  induction docs as [|chunk docs IH] using rev_ind; simpl.
  { split_and!.
    - constructor.
    - intros s. split; [by intros ?%elem_of_nil|].
      by intros (c & ?%elem_of_nil & _).
    - intros i j s t Hi. by rewrite lookup_nil in Hi. }
  destruct IH as (Hnd & Hmem & Hord).
  rewrite foldl_snoc, add_source_label.
  set (sources := foldl add_source [] docs) in *.
  assert (Hkeep : in_first_seen_order (docs ++ [chunk]) sources).
  { intros i j s t Hi Hj Hij.
    destruct (Hord i j s t Hi Hj Hij) as (a & b & Ha & Hb & Hab).
    exists a, b. split_and!; [| |done].
    - by apply first_seen_Some.
    - by apply first_seen_Some. }
  destruct (label chunk) as [x|] eqn:Hx.
  - unfold StringSet.add. case_bool_decide as Hin.
    + split_and!; [done| |done].
      intros s. rewrite Hmem. split.
      * intros (c & Hc & Hl). exists c. split; [|done].
        apply elem_of_app. by left.
      * intros (c & [Hc| ->%list_elem_of_singleton]%elem_of_app & Hl); [by exists c|].
        rewrite Hx in Hl. simplify_eq. by apply Hmem.
    + split_and!.
      * apply NoDup_app. split_and!; [done| |apply NoDup_singleton].
        intros y Hy ->%list_elem_of_singleton. done.
      * intros s. rewrite elem_of_app, Hmem, list_elem_of_singleton. split.
        -- intros [(c & Hc & Hl)| ->].
           ++ exists c. split; [|done]. apply elem_of_app. by left.
           ++ exists chunk. split; [|done]. apply elem_of_app. right.
              by apply list_elem_of_singleton.
        -- intros (c & [Hc| ->%list_elem_of_singleton]%elem_of_app & Hl).
           ++ left. by exists c.
           ++ right. rewrite Hx in Hl. by simplify_eq.
      * intros i j s t Hi Hj Hij.
        assert (Hjlen : (j < length (sources ++ [x]))%nat)
          by by apply lookup_lt_Some in Hj.
        rewrite length_app in Hjlen. simpl in Hjlen.
        rewrite lookup_app_l in Hi by lia.
        destruct (decide (j < length sources)%nat) as [Hlt|Hge].
        -- rewrite lookup_app_l in Hj by done.
           by apply (Hkeep i j).
        -- assert (j = length sources) as -> by lia.
           rewrite list_lookup_middle in Hj by done. simplify_eq.
           assert (Hs : s ∈ sources) by by eapply list_elem_of_lookup_2.
           apply Hmem in Hs as (c & Hc & Hl).
           apply label_Some in Hl as (Hl & _).
           assert (is_Some (first_seen s docs)) as [a Ha].
           { unfold first_seen.
             destruct (list_find_elem_of (fun c : ScoredChunk => source_of c.1 = Val s)
                         docs c Hc Hl) as [[a ?] ->].
             by eexists. }
           apply first_seen_Some in Ha as (Halt & Ha).
           exists a, (length docs). split_and!; [done| |done].
           apply label_Some in Hx as (Hx & Hne).
           apply first_seen_new; [|done].
           intros c' Hc' Hsrc. apply Hin, Hmem.
           exists c'. split; [done|]. by apply label_Some.
  - split_and!; [done| |done].
    intros s. rewrite Hmem. split.
    + intros (c & Hc & Hl). exists c. split; [|done].
      apply elem_of_app. by left.
    + intros (c & [Hc| ->%list_elem_of_singleton]%elem_of_app & Hl); [by exists c|].
      by rewrite Hx in Hl.
Qed.

Lemma extractSources_array (docs : list ScoredChunk) :
  extractSources (Val docs) = inr (foldl add_source StringSet.empty docs).
Proof. reflexivity. Qed.

Lemma labels_cons (chunk : ScoredChunk) (docs : list ScoredChunk) :
  labels (chunk :: docs) =
  match label chunk with
  | Some s => s :: labels docs
  | None => labels docs
  end.
Proof. reflexivity. Qed.

Lemma foldl_add_source_labels (acc : StringSet.t) (docs : list ScoredChunk) :
  foldl add_source acc docs =
  foldl (fun sources s => StringSet.add s sources) acc (labels docs).
Proof.
  revert acc. induction docs as [|chunk docs IH]; intros acc; [done|].
  rewrite labels_cons. change (foldl add_source acc (chunk :: docs))
    with (foldl add_source (add_source acc chunk) docs).
  rewrite IH, add_source_label.
  by destruct (label chunk).
Qed.

(** Adding to a [Set] one by one keeps exactly the first occurrences. *)
Lemma foldl_add_distinct (acc : StringSet.t) (l : list string) :
  foldl (fun sources s => StringSet.add s sources) acc l =
  acc ++ filter (fun y => y ∉ acc) (ordered_distinct l).
Proof.
  revert acc. induction l as [|x l IH]; intros acc.
  { simpl. by rewrite app_nil_r. }
  simpl foldl. simpl ordered_distinct. rewrite IH.
  unfold StringSet.add. case_bool_decide as Hin.
  - rewrite filter_cons_False by (intros ?; done).
    rewrite list_filter_filter. f_equal.
    apply list_filter_iff. intros y. split; [by intros ?; split; [|congruence]|].
    by intros [? _].
  - rewrite filter_cons_True by done.
    rewrite list_filter_filter, <- app_assoc. simpl. do 2 f_equal.
    apply list_filter_iff. intros y.
    rewrite elem_of_app, list_elem_of_singleton. tauto.
Qed.

(** [extractSources] computes the ordered-distinct sequence of the
    labels. *)
Lemma extractSources_ordered_distinct (docs : list ScoredChunk) :
  extractSources (Val docs) = inr (ordered_distinct (labels docs)).
Proof.
  rewrite extractSources_array, foldl_add_source_labels, foldl_add_distinct.
  unfold StringSet.empty. simpl. f_equal.
  induction (ordered_distinct (labels docs)) as [|x l IH]; [done|].
  rewrite filter_cons_True by apply not_elem_of_nil. by rewrite IH.
Qed.

(** A chunk without a label leaves the result as it is. *)
Lemma extractSources_skip (before after : list ScoredChunk) (chunk : ScoredChunk) :
  label chunk = None ->
  extractSources (Val (before ++ chunk :: after)) = extractSources (Val (before ++ after)).
Proof.
  intros Hl. rewrite !extractSources_array. f_equal.
  rewrite !foldl_app. simpl. by rewrite add_source_label, Hl.
Qed.

Lemma missing_no_label (chunk : ScoredChunk) :
  is_missing (source_of chunk.1) = true -> label chunk = None.
Proof. unfold label. by destruct (source_of chunk.1). Qed.

Lemma missing_unknown (doc : Document) :
  is_missing (source_of doc) = true -> source_or_unknown doc = "unknown".
Proof. unfold source_or_unknown. by destruct (source_of doc). Qed.

End SourcesFacts.

(* ================================================================== *)
(** * Runs of the request functions *)
(* ================================================================== *)

Module RunFacts.
Import Str StrFacts Number JS Effects LLMProviderService RAGService Props.
Import SourcesFacts.

Ltac run :=
  cbn [bind try_catch emit lift ret throw search call_llm deref
       fst snd app trace outcome].

Lemma default_param_idem {A} (x d : nullable A) :
  default_param (default_param x d) d = default_param x d.
Proof. by destruct x, d. Qed.

Lemma default_param_Val {A} (x : A) (d : nullable A) : default_param (Val x) d = Val x.
Proof. reflexivity. Qed.

Section Runs.
Variable config : LLMConfig.
Variable providers : Providers.
Variable world : World.

(** A request whose three steps all succeed. *)
Lemma generateResponse_run (question : string) (name : nullable string)
    (k : nullable number) (llm : Client) (docs : list ScoredChunk) (answer : string) :
  getProvider config providers (default_param name Null) = inr llm ->
  similaritySearchWithScore world question (default_param k five) = inr (Val docs) ->
  invoke world llm (format_prompt (formatContext (Val docs)) question) = inr answer ->
  generateResponse config providers world question name k =
  ([opening question;
    Searched question (default_param k five);
    Invoked llm (format_prompt (formatContext (Val docs)) question);
    LogInfo "Response generated successfully"],
   inr (payload question (provider_label providers (default_param name Null))
          (VString (now world)) docs (ordered_distinct (labels docs)) answer)).
Proof.
  intros Hp Hs Hi. unfold generateResponse.
  rewrite Hp. run. rewrite Hs. run. rewrite Hi. run.
  rewrite extractSources_ordered_distinct. run.
  reflexivity.
Qed.

(** The provider lookup fails: nothing else is attempted. *)
Lemma generateResponse_no_provider (question : string) (name : nullable string)
    (k : nullable number) (error : exn) :
  getProvider config providers (default_param name Null) = inl error ->
  generateResponse config providers world question name k =
  ([opening question; LogError "Error generating RAG response:" error], inl error).
Proof. intros Hp. unfold generateResponse. rewrite Hp. by run. Qed.

(** The search fails: the model is not called. *)
Lemma generateResponse_search_fails (question : string) (name : nullable string)
    (k : nullable number) (llm : Client) (failure : exn) :
  getProvider config providers (default_param name Null) = inr llm ->
  similaritySearchWithScore world question (default_param k five) = inl failure ->
  generateResponse config providers world question name k =
  ([opening question;
    Searched question (default_param k five);
    LogError "Error generating RAG response:" failure],
   inl failure).
Proof.
  intros Hp Hs. unfold generateResponse.
  rewrite Hp. run. rewrite Hs. by run.
Qed.

(** The model call fails. *)
Lemma generateResponse_llm_fails (question : string) (name : nullable string)
    (k : nullable number) (llm : Client) (found : nullable (list ScoredChunk))
    (failure : exn) :
  getProvider config providers (default_param name Null) = inr llm ->
  similaritySearchWithScore world question (default_param k five) = inr found ->
  invoke world llm (format_prompt (formatContext found) question) = inl failure ->
  generateResponse config providers world question name k =
  ([opening question;
    Searched question (default_param k five);
    Invoked llm (format_prompt (formatContext found) question);
    LogError "Error generating RAG response:" failure],
   inl failure).
Proof.
  intros Hp Hs Hi. unfold generateResponse.
  rewrite Hp. run. rewrite Hs. run. rewrite Hi. by run.
Qed.

(** The search answers [null] or [undefined]: the model is called on
    the sentinel context, then reading the length fails. *)
Lemma generateResponse_absent_result (question : string) (name : nullable string)
    (k : nullable number) (llm : Client) (found : nullable (list ScoredChunk))
    (answer : string) :
  getProvider config providers (default_param name Null) = inr llm ->
  similaritySearchWithScore world question (default_param k five) = inr found ->
  is_missing found = true ->
  invoke world llm (format_prompt no_context question) = inr answer ->
  generateResponse config providers world question name k =
  ([opening question;
    Searched question (default_param k five);
    Invoked llm (format_prompt no_context question);
    LogInfo "Response generated successfully";
    LogError "Error generating RAG response:" (TypeError (cannot_read found "length"))],
   inl (TypeError (cannot_read found "length"))).
Proof.
  intros Hp Hs Hm Hi. unfold generateResponse.
  rewrite Hp. run. rewrite Hs. run.
  destruct found as [| |docs]; [| |done]; cbn [formatContext];
    rewrite Hi; by run.
Qed.


(** In the second edition a failing search ends the run whatever the
    provider. *)
Lemma generateResponse'_search_fails (question : string) (name : nullable string)
    (k : nullable number) (failure : exn) :
  similaritySearchWithScore world question (default_param k five) = inl failure ->
  generateResponse' config providers world question name k =
  ([opening question;
    Searched question (default_param k five);
    LogError "Error generating RAG response:" failure],
   inl failure).
Proof. intros Hs. unfold generateResponse'. run. rewrite Hs. by run. Qed.

(** [askQuestion] in terms of the run of [generateResponse]. *)
Lemma askQuestion_unfold (question : string) (options : Options) :
  askQuestion config providers world question options =
  match generateResponse config providers world question
          (default_param (provider options) Null)
          (default_param (maxContextDocs options) five) with
  | (t, inr result) =>
      (t, inr (match default_param (includeContext options) (Val false) with
               | Val true => result
               | _ =>
                   VObject
                     [("response", get "response" result);
                      ("sources", get "sources" (get "context" result));
                      ("metadata",
                        VObject
                          [("provider", get "provider" (get "metadata" result));
                           ("timestamp", get "timestamp" (get "metadata" result))])]
               end))
  | (t, inl error) =>
      (t ++ [LogError "Error in askQuestion:" error],
       inl (Error ("Failed to generate response: " +:+ message error)))
  end.
Proof.
  unfold askQuestion.
  destruct (generateResponse _ _ _ _ _ _) as [t [error|result]]; run.
  - reflexivity.
  - destruct (default_param (includeContext options) (Val false)) as [| |[]];
      run; by rewrite app_nil_r.
Qed.

(** A request that succeeds, in both shapes. *)
Lemma askQuestion_run (question : string) (options : Options)
    (llm : Client) (docs : list ScoredChunk) (answer : string) :
  getProvider config providers (default_param (provider options) Null) = inr llm ->
  similaritySearchWithScore world question
    (default_param (maxContextDocs options) five) = inr (Val docs) ->
  invoke world llm (format_prompt (formatContext (Val docs)) question) = inr answer ->
  askQuestion config providers world question options =
  ([opening question;
    Searched question (default_param (maxContextDocs options) five);
    Invoked llm (format_prompt (formatContext (Val docs)) question);
    LogInfo "Response generated successfully"],
   inr (let label := provider_label providers (default_param (provider options) Null) in
        match default_param (includeContext options) (Val false) with
        | Val true =>
            payload question label (VString (now world)) docs
              (ordered_distinct (labels docs)) answer
        | _ =>
            simplified label (VString (now world)) (ordered_distinct (labels docs)) answer
        end)).
Proof.
  intros Hp Hs Hi. rewrite askQuestion_unfold.
  rewrite (generateResponse_run _ _ _ llm docs answer);
    rewrite ?default_param_idem; done.
Qed.

(** [getContextForQuestion] on a search that answers with chunks. *)
Lemma getContextForQuestion_run (question : string) (k : nullable number)
    (docs : list ScoredChunk) :
  similaritySearchWithScore world question (default_param k five) = inr (Val docs) ->
  getContextForQuestion world question k =
  ([Searched question (default_param k five)],
   inr (context_report docs (ordered_distinct (labels docs)))).
Proof.
  intros Hs. unfold getContextForQuestion. run. rewrite Hs. run.
  rewrite extractSources_ordered_distinct. by run.
Qed.

End Runs.
End RunFacts.

(* ================================================================== *)
(** * Lemmas on the provider registry *)
(* ================================================================== *)

Module RegistryFacts.
Import Str StrFacts JS Effects LLMProviderService.

Lemma find_None {V} (name : string) (m : StringMap.t V) :
  StringMap.find name m = None <-> name ∉ StringMap.keys m.
Proof.
  unfold StringMap.keys. induction m as [|[k v] m IH]; simpl.
  - split; [intros _; apply not_elem_of_nil | done].
  - rewrite not_elem_of_cons, <- IH.
    destruct (String.eqb_spec name k) as [->|Hne].
    + split; [done | by intros [? _]].
    + split; [by intros ?; split | by intros [_ ?]].
Qed.

Lemma find_Some_key {V} (name : string) (m : StringMap.t V) (v : V) :
  StringMap.find name m = Some v -> name ∈ StringMap.keys m.
Proof.
  intros Hf. destruct (decide (name ∈ StringMap.keys m)) as [|Hn]; [done|].
  apply find_None in Hn. congruence.
Qed.

(** Every registered name occurs in the message of the lookup error. *)
Lemma not_available_lists (providers : Providers) (requested : nullable string)
    (registered : string) :
  registered ∈ getAvailableProviders providers ->
  contains registered (not_available providers requested).
Proof.
  intros Hin. unfold not_available.
  do 3 apply contains_app_r. by apply join_contains.
Qed.

(** The registry the constructor builds has no empty name. *)
Lemma initializeProviders_keys (config : LLMConfig) (providers : Providers) :
  outcome (initializeProviders config) = inr providers ->
  Forall (fun name => name ∈ ["openai"; "anthropic"; "bedrock"])
    (getAvailableProviders providers).
Proof.
  unfold initializeProviders.
  destruct (truthy (openai_apiKey config)),
           (truthy (anthropic_apiKey config)),
           (truthy (bedrock_accessKeyId config) && truthy (bedrock_secretAccessKey config));
    simpl; intros [= <-]; repeat constructor.
Qed.

End RegistryFacts.

(* ================================================================== *)
(** * Properties of the service *)
(* ================================================================== *)

Module Service.
Import Str StrFacts Number NumberFacts JS Effects LLMProviderService RAGService.
Import Props SourcesFacts RunFacts RegistryFacts.

Ltac by_decide := apply (bool_decide_unpack _); vm_compute; exact I.

(** ** Sources *)

(** C1 (as amended).  For every list of chunks, [extractSources]
    returns each distinct non-empty [source] value exactly once, in the
    order of first appearance among the chunks, and nothing that is not
    the source of some chunk; it is the ordered-distinct sequence of the
    labels of the chunks. *)
Theorem extractSources_distinct_first_seen (docs : list ScoredChunk) :
  distinct_sources (fun s => s <> "") docs
  /\ extractSources (Val docs) = inr (ordered_distinct (labels docs)).
Proof.
  split; [|apply extractSources_ordered_distinct].
  destruct (collected_spec docs) as (Hnd & Hmem & Hord).
  exists (foldl add_source StringSet.empty docs). split_and!; try done.
  intros s. rewrite Hmem. split.
  - intros (chunk & Hin & (Hs & Hne)%label_Some). eauto.
  - intros (Hne & chunk & Hin & Hs). exists chunk. split; [done|].
    by apply label_Some.
Qed.

(** C1, as stated, fails on a chunk whose source is the empty string:
    the value is a source of the chunk list and is not returned. *)
Lemma empty_source_not_listed :
  ~ distinct_sources (fun _ => True) [Sample.empty_label_chunk].
Proof.
  intros (sources & Hex & _ & Hmem & _).
  vm_compute in Hex. injection Hex as <-.
  assert (Hin : "" ∈ @nil string).
  { apply Hmem. split; [done|].
    exists Sample.empty_label_chunk. split; [constructor | reflexivity]. }
  by apply elem_of_nil in Hin.
Qed.

(** C2 (as amended).  A chunk whose source is missing shows as
    ["unknown"] in its [relevanceScores] entry and in its header of the
    context, and adds nothing to [sources]: the result of
    [extractSources] is the one for the list without the chunk, so that
    ["unknown"] is listed only when it is the source of some chunk. *)
Theorem missing_source_unknown_outside_sources
    (before after : list ScoredChunk) (chunk : ScoredChunk) :
  is_missing (source_of chunk.1) = true ->
  get "source" (relevance_entry chunk) = VString "unknown"
  /\ chunk_text chunk =
       "Source: unknown (Relevance: " +:+ toFixed chunk.2 3 +:+ ")" +:+ nl
         +:+ pageContent chunk.1
  /\ format_chunk chunk = chunk_text chunk
  /\ extractSources (Val (before ++ chunk :: after)) = extractSources (Val (before ++ after))
  /\ forall sources : list string,
       extractSources (Val (before ++ chunk :: after)) = inr sources ->
       "unknown" ∈ sources ->
       exists other : ScoredChunk,
         other ∈ before ++ after /\ source_of other.1 = Val "unknown".
Proof.
  intros Hm. pose proof (missing_unknown _ Hm) as Hu.
  pose proof (extractSources_skip before after chunk (missing_no_label _ Hm)) as Hskip.
  split_and!.
  - destruct chunk as [doc score]. simpl in *. by rewrite Hu.
  - unfold chunk_text. by rewrite Hu.
  - by destruct chunk.
  - done.
  - intros sources Hex Hin. rewrite Hskip in Hex.
    destruct (collected_spec (before ++ after)) as (_ & Hmem & _).
    rewrite extractSources_array in Hex. injection Hex as <-.
    apply Hmem in Hin as (other & Hother & (Hs & _)%label_Some). eauto.
Qed.

(** The property on a list of three chunks, the second without source. *)
Lemma missing_source_unknown_outside_sources_witness :
  get "source" (relevance_entry Sample.unlabelled_chunk) = VString "unknown"
  /\ extractSources (Val [Sample.otel_chunk; Sample.unlabelled_chunk; Sample.blog_chunk])
     = inr ["otel-docs"; "blog"].
Proof.
  destruct (missing_source_unknown_outside_sources
              [Sample.otel_chunk] [Sample.blog_chunk] Sample.unlabelled_chunk)
    as (Hentry & _ & _ & Hskip & _); [reflexivity|].
  split; [exact Hentry|].
  etransitivity; [exact Hskip | reflexivity].
Defined.

(** C2, as stated, fails: a single chunk without a source gives an
    empty [sources], which does not hold ["unknown"]. *)
Lemma missing_source_not_listed :
  ~ missing_source_listed_unknown [Sample.unlabelled_chunk].
Proof.
  intros H.
  destruct (H Sample.unlabelled_chunk) as (sources & Hex & Hin);
    [constructor | reflexivity |].
  vm_compute in Hex. injection Hex as <-.
  by apply elem_of_nil in Hin.
Qed.

(** ** Provider registry *)

(** C8.  A name that is not registered makes [getProvider] fail with
    an error whose message names the request and lists every
    registered provider, in registration order; without an argument the
    lookup is the one of the configured default name, and returns the
    default provider when that one is registered. *)
Theorem getProvider_absent_or_default (config : LLMConfig) (providers : Providers) :
  (forall name : string,
     name ∉ getAvailableProviders providers ->
     getProvider config providers (Val name) =
       inl (Error ("LLM provider '" +:+ name
                     +:+ "' not available. Available providers: "
                     +:+ join ", " (getAvailableProviders providers)))
     /\ forall registered : string,
          registered ∈ getAvailableProviders providers ->
          exists error : exn,
            getProvider config providers (Val name) = inl error
            /\ contains registered (message error))
  /\ getProvider config providers Undefined =
       getProvider config providers (defaultProvider config)
  /\ (forall llm : Client,
        StringMap.get (defaultProvider config) providers = Some llm ->
        getProvider config providers Undefined = inr llm).
Proof.
  split_and!.
  - intros name Habs. apply find_None in Habs.
    assert (Hget : getProvider config providers (Val name)
                   = inl (Error (not_available providers (Val name)))).
    { unfold getProvider. simpl. by rewrite Habs. }
    split; [exact Hget|].
    intros registered Hreg. eexists. split; [exact Hget|].
    by apply not_available_lists.
  - unfold getProvider. by destruct (defaultProvider config).
  - intros llm Hllm. unfold getProvider. simpl. by rewrite Hllm.
Qed.

(** The property on the registry of two providers. *)
Lemma getProvider_absent_or_default_witness :
  getProvider Sample.config Sample.providers (Val "gemini") =
    inl (Error "LLM provider 'gemini' not available. Available providers: openai, anthropic")
  /\ getProvider Sample.config Sample.providers Undefined = inr Sample.openai.
Proof.
  destruct (getProvider_absent_or_default Sample.config Sample.providers)
    as (Habs & _ & Hdef).
  split.
  - destruct (Habs "gemini") as [Hmsg _]; [by_decide | exact Hmsg].
  - apply Hdef. reflexivity.
Defined.

(** ** Context *)

(** C10.  [formatContext] answers [null], [undefined] and the empty
    list alike, with the sentinel sentence. *)
Theorem formatContext_absent :
  formatContext Null = "No relevant context found in the knowledge base."
  /\ formatContext Undefined = formatContext (Val [])
  /\ formatContext Null = formatContext (Val [])
  /\ formatContext (Val []) = no_context.
Proof. by split_and!. Qed.

Lemma not_fixed_NaN (negative : bool) (n : Z) :
  ~ fixed_decimals 3 negative n "NaN".
Proof.
  intros (ip & fp & Heq & Hip & _ & Hlen & _).
  apply (f_equal String.length) in Heq.
  rewrite !slength_app, !length_of_chars in Heq.
  destruct ip; [done|]. destruct negative; simpl in Heq; lia.
Qed.

Lemma formatContext_join (docs : list ScoredChunk) :
  docs <> [] -> formatContext (Val docs) = join separator (chunk_text <$> docs).
Proof.
  intros Hne. unfold formatContext.
  destruct docs as [|chunk docs]; [done|]. simpl length. simpl Nat.eqb.
  f_equal. apply list_fmap_ext. by intros i [doc score] _.
Qed.

(** C6 (as amended).  For a non-empty list of chunks the context is the
    chunks' texts in result order, joined by the separator; each text
    is the header [Source: <source> (Relevance: <score>)], with
    ["unknown"] for a missing or empty source, then a line break and
    the raw content.  A finite score of magnitude below 10^21 is
    printed with exactly three decimals, rounded to the nearest
    thousandth.  A single chunk of score 0.87 gives a context that
    contains [Relevance: 0.870] and the content. *)
Theorem formatContext_layout (docs : list ScoredChunk) :
  docs <> [] ->
  formatContext (Val docs) = join separator (chunk_text <$> docs)
  /\ (forall before after : list ScoredChunk,
        before <> [] -> after <> [] -> docs = before ++ after ->
        formatContext (Val docs) =
          formatContext (Val before) +:+ separator +:+ formatContext (Val after))
  /\ (forall chunk : ScoredChunk,
        chunk ∈ docs ->
        contains (chunk_text chunk) (formatContext (Val docs))
        /\ contains (pageContent chunk.1) (formatContext (Val docs)))
  /\ Forall (fun chunk : ScoredChunk =>
               forall (neg : bool) (m : N) (e : Z),
                 chunk.2 = Finite neg m e -> fixed_range chunk.2 = true ->
                 fixed_decimals 3 (is_negative neg m) (scaled_round m e 3)
                   (toFixed chunk.2 3)
                 /\ nearest_scaled m e 3 (scaled_round m e 3)) docs
  /\ (forall doc : Document,
        docs = [(doc, d0_87)] ->
        contains "Relevance: 0.870" (formatContext (Val docs))).
Proof.
  intros Hne. pose proof (formatContext_join docs Hne) as Hjoin.
  split_and!.
  - exact Hjoin.
  - intros before after Hb Ha ->.
    rewrite !formatContext_join by done.
    rewrite fmap_app. apply join_app; by destruct before, after.
  - intros chunk Hin. rewrite Hjoin.
    assert (Hc : contains (chunk_text chunk) (join separator (chunk_text <$> docs))).
    { apply join_contains, list_elem_of_fmap. eauto. }
    split; [exact Hc|].
    eapply contains_trans; [|exact Hc].
    unfold chunk_text. do 6 apply contains_app_r. apply contains_refl.
  - apply Forall_forall. intros [doc score] _ neg m e Hscore Hrange.
    simpl in *. subst score. simpl in Hrange.
    apply negb_true_iff in Hrange. split.
    + apply toFixed_fixed; [done | lia].
    + apply scaled_round_nearest.
  - intros doc ->. rewrite Hjoin. simpl. unfold chunk_text. simpl.
    apply contains_app_r, contains_app_r.
    exists " (", (")" +:+ nl +:+ pageContent doc).
    reflexivity.
Qed.

(** The property on the chunk of the documented scenario. *)
Lemma formatContext_layout_witness :
  formatContext (Val [Sample.otel_chunk; Sample.blog_chunk]) =
    "Source: otel-docs (Relevance: 0.870)" +:+ nl
      +:+ "Use NodeSDK to start tracing." +:+ separator
      +:+ "Source: blog (Relevance: 0.750)" +:+ nl +:+ "Add custom spans."
  /\ contains "Relevance: 0.870" (formatContext (Val [Sample.otel_chunk])).
Proof.
  split.
  - destruct (formatContext_layout [Sample.otel_chunk; Sample.blog_chunk])
      as (Hjoin & _); [discriminate|].
    etransitivity; [exact Hjoin | reflexivity].
  - destruct (formatContext_layout [Sample.otel_chunk]) as (_ & _ & _ & _ & H);
      [discriminate|].
    apply (H (Sample.doc "Use NodeSDK to start tracing." (Val "otel-docs"))).
    reflexivity.
Defined.

(** C6, as stated, fails on a score that is not a number: its header
    reads [Relevance: NaN], without decimals. *)
Lemma nan_score_without_decimals : ~ context_layout [Sample.nan_chunk].
Proof.
  intros [_ Hall]. apply Forall_cons in Hall as [(negative & n & Hfix) _].
  by apply not_fixed_NaN in Hfix.
Qed.

(** ** Requests *)

Section Requests.
Variable config : LLMConfig.
Variable providers : Providers.
Variable world : World.

(** C3 (as amended).  A request that succeeds with [includeContext]
    returns the full payload of [generateResponse]: [response],
    [metadata] and a [context] object that holds [documentsUsed] (the
    number of chunks), [sources] and [relevanceScores] (one pair of
    source, or ["unknown"], and score per chunk, in search-result
    order); the formatted context string is not part of it, and
    [sources], [relevanceScores] and [documentsUsed] are not fields of
    the result itself.  Without [includeContext] the result has the
    fields [response], [sources] and [metadata] only, the latter with
    [provider] and [timestamp]. *)
Theorem askQuestion_result_shape (question : string) (options : Options)
    (llm : Client) (docs : list ScoredChunk) (answer : string) :
  getProvider config providers (default_param (provider options) Null) = inr llm ->
  similaritySearchWithScore world question
    (default_param (maxContextDocs options) five) = inr (Val docs) ->
  invoke world llm (format_prompt (formatContext (Val docs)) question) = inr answer ->
  exists result : value,
    outcome (askQuestion config providers world question options) = inr result
    /\ get "response" result = VString answer
    /\ match includeContext options with
       | Val true =>
           keys result = ["response"; "context"; "metadata"]
           /\ get "context" result =
                VObject
                  [("documentsUsed", VNumber (of_nat (length docs)));
                   ("sources", VArray (VString <$> ordered_distinct (labels docs)));
                   ("relevanceScores", VArray (relevance_entry <$> docs))]
           /\ keys (get "metadata" result) = ["question"; "provider"; "timestamp"]
       | _ =>
           keys result = ["response"; "sources"; "metadata"]
           /\ get "sources" result = VArray (VString <$> ordered_distinct (labels docs))
           /\ keys (get "metadata" result) = ["provider"; "timestamp"]
           /\ has "context" result = false
           /\ has "relevanceScores" result = false
       end.
Proof.
  intros Hp Hs Hi.
  rewrite (askQuestion_run config providers world question options llm docs answer Hp Hs Hi).
  eexists. split; [reflexivity|].
  by destruct (includeContext options) as [| |[]].
Qed.

(** C7.  On the same chunk list, [getContextForQuestion] and a
    request through [askQuestion] search once with the same
    arguments and give the same [sources] and the same chunk count
    ([documentCount], [documentsUsed]). *)
Theorem context_and_request_agree (question : string) (name : nullable string)
    (k : nullable number) (full : nullable bool)
    (llm : Client) (docs : list ScoredChunk) (answer : string) :
  let options := {| provider := name; maxContextDocs := k; includeContext := full |} in
  let inspect := getContextForQuestion world question k in
  let request := askQuestion config providers world question options in
  getProvider config providers (default_param name Null) = inr llm ->
  similaritySearchWithScore world question (default_param k five) = inr (Val docs) ->
  invoke world llm (format_prompt (formatContext (Val docs)) question) = inr answer ->
  exists report result : value,
    outcome inspect = inr report
    /\ outcome request = inr result
    /\ searches (trace inspect) = searches (trace request)
    /\ get "sources" report = VArray (VString <$> ordered_distinct (labels docs))
    /\ get "documentCount" report = VNumber (of_nat (length docs))
    /\ match full with
       | Val true =>
           get "sources" (get "context" result) = get "sources" report
           /\ get "documentsUsed" (get "context" result) = get "documentCount" report
       | _ => get "sources" result = get "sources" report
       end.
Proof.
  intros options inspect request Hp Hs Hi. subst inspect request.
  rewrite (getContextForQuestion_run world question k docs Hs).
  rewrite (askQuestion_run config providers world question options llm docs answer Hp Hs Hi).
  do 2 eexists. split_and!; try reflexivity.
  by destruct full as [| |[]].
Qed.

(** C9 (as amended).  When the similarity search fails, the request
    ends with an error whose message is the message of the failure
    after the prefix [Failed to generate response: ]; the search was
    made once, no model was called, and there is no result. *)
Theorem search_failure_wrapped (question : string) (options : Options)
    (llm : Client) (failure : exn) :
  let request := askQuestion config providers world question options in
  getProvider config providers (default_param (provider options) Null) = inr llm ->
  similaritySearchWithScore world question
    (default_param (maxContextDocs options) five) = inl failure ->
  outcome request = inl (Error ("Failed to generate response: " +:+ message failure))
  /\ searches (trace request) =
       [(question, default_param (maxContextDocs options) five)]
  /\ invocations (trace request) = [].
Proof.
  intros request Hp Hs. subst request.
  rewrite askQuestion_unfold.
  rewrite (generateResponse_search_fails config providers world question _ _ llm failure);
    rewrite ?default_param_idem; done.
Qed.


(** For every request that succeeds, the provider was named in the
    request, the model called is the one registered under that name,
    and [metadata.provider] is that name. *)
Lemma askQuestion_reports_requested_provider (question : string) (options : Options)
    (result : value) :
  let request := askQuestion config providers world question options in
  Forall (fun name => name <> "") (getAvailableProviders providers) ->
  outcome request = inr result ->
  exists (name : string) (llm : Client) (prompt : string),
    provider options = Val name
    /\ StringMap.find name providers = Some llm
    /\ invocations (trace request) = [(llm, prompt)]
    /\ match includeContext options with
       | Val true => get "provider" (get "metadata" result) = VString name
       | _ => get "provider" (get "metadata" result) = VString name
       end.
Proof.
  intros request Hkeys Hout. subst request.
  destruct (provider options) as [| |name] eqn:Hname.
  1,2: rewrite askQuestion_unfold, Hname in Hout;
       by rewrite (generateResponse_no_provider _ _ _ _ _ _
                     (Error (not_available providers Null))) in Hout.
  assert (Hdef : default_param (provider options) Null = Val name) by by rewrite Hname.
  destruct (getProvider config providers (Val name)) as [error|llm] eqn:Hp.
  { rewrite askQuestion_unfold, Hdef in Hout.
    by rewrite (generateResponse_no_provider _ _ _ _ _ _ error) in Hout. }
  assert (Hfind : StringMap.find name providers = Some llm).
  { unfold getProvider in Hp. simpl in Hp.
    destruct (StringMap.find name providers); by simplify_eq. }
  assert (Hne : truthy (Val name) = true).
  { apply find_Some_key in Hfind.
    eapply Forall_forall in Hkeys; [|exact Hfind]. by destruct name. }
  destruct (similaritySearchWithScore world question
              (default_param (maxContextDocs options) five)) as [failure|found] eqn:Hs.
  { rewrite askQuestion_unfold, Hdef in Hout.
    by rewrite (generateResponse_search_fails _ _ _ _ _ _ llm failure) in Hout
      by by rewrite ?default_param_idem. }
  destruct (invoke world llm (format_prompt (formatContext found) question))
    as [failure|answer] eqn:Hi.
  { rewrite askQuestion_unfold, Hdef in Hout.
    by rewrite (generateResponse_llm_fails _ _ _ _ _ _ llm found failure) in Hout
      by by rewrite ?default_param_idem. }
  destruct found as [| |docs].
  1,2: rewrite askQuestion_unfold, Hdef in Hout;
       by rewrite (generateResponse_absent_result _ _ _ _ _ _ llm _ answer) in Hout
         by by rewrite ?default_param_idem.
  rewrite <- Hdef in Hp.
  rewrite (askQuestion_run config providers world question options llm docs answer
             Hp Hs Hi) in Hout |- *.
  cbn [outcome snd] in Hout. injection Hout as <-.
  exists name, llm, (format_prompt (formatContext (Val docs)) question).
  rewrite Hdef. unfold provider_label. rewrite Hne.
  split_and!; try done.
  all: by destruct (includeContext options) as [| |[]].
Qed.


(** With an empty list of chunks the request goes through: the model
    is called on the sentinel context and its answer is returned,
    with no sources. *)
Lemma askQuestion_empty_result_proceeds (question : string) (options : Options)
    (llm : Client) (answer : string) :
  let request := askQuestion config providers world question options in
  getProvider config providers (default_param (provider options) Null) = inr llm ->
  similaritySearchWithScore world question
    (default_param (maxContextDocs options) five) = inr (Val []) ->
  invoke world llm (format_prompt no_context question) = inr answer ->
  invocations (trace request) = [(llm, format_prompt no_context question)]
  /\ exists result : value,
       outcome request = inr result
       /\ get "response" result = VString answer
       /\ match includeContext options with
          | Val true => get "sources" (get "context" result) = VArray []
          | _ => get "sources" result = VArray []
          end.
Proof.
  intros request Hp Hs Hi. subst request.
  rewrite (askQuestion_run config providers world question options llm [] answer Hp Hs Hi).
  split; [reflexivity|]. eexists. split; [reflexivity|].
  by destruct (includeContext options) as [| |[]].
Qed.

End Requests.

(** ** The properties on the documented scenario *)

(** The full payload of the documented scenario. *)
Lemma askQuestion_result_shape_witness :
  exists result : value,
    outcome (askQuestion Sample.config Sample.providers
               (Sample.world (inr (Val [Sample.otel_chunk]))) Sample.tracing
               (Sample.with_provider "openai" true)) = inr result
    /\ keys result = ["response"; "context"; "metadata"]
    /\ get "context" result =
         VObject
           [("documentsUsed", VNumber (of_nat 1));
            ("sources", VArray [VString "otel-docs"]);
            ("relevanceScores",
              VArray [VObject [("source", VString "otel-docs"); ("score", VNumber d0_87)]])].
Proof.
  destruct (askQuestion_result_shape Sample.config Sample.providers
              (Sample.world (inr (Val [Sample.otel_chunk]))) Sample.tracing
              (Sample.with_provider "openai" true) Sample.openai [Sample.otel_chunk]
              "It depends." eq_refl eq_refl eq_refl)
    as (result & Hout & _ & Hkeys & Hctx & _).
  exists result. split_and!; [exact Hout | exact Hkeys | exact Hctx].
Defined.

(** C3, as stated, fails: with [includeContext] the [context] field of
    the result is an object, not the formatted context string. *)
Lemma context_field_is_not_the_string :
  ~ context_fields_as_documented Sample.config Sample.providers
      (Sample.world (inr (Val [Sample.otel_chunk]))) Sample.tracing
      (Sample.with_provider "openai" true) [Sample.otel_chunk].
Proof.
  intros H.
  destruct (H _ eq_refl) as (Hctx & _).
  vm_compute in Hctx. discriminate Hctx.
Qed.

(** Inspection and request on three chunks from two sources. *)
Lemma context_and_request_agree_witness :
  exists report result : value,
    outcome (getContextForQuestion
               (Sample.world (inr (Val [Sample.otel_chunk; Sample.blog_chunk;
                                        Sample.otel_chunk]))) Sample.tracing Undefined)
      = inr report
    /\ outcome (askQuestion Sample.config Sample.providers
                  (Sample.world (inr (Val [Sample.otel_chunk; Sample.blog_chunk;
                                           Sample.otel_chunk]))) Sample.tracing
                  (Sample.with_provider "anthropic" true)) = inr result
    /\ get "sources" report = VArray [VString "otel-docs"; VString "blog"]
    /\ get "sources" (get "context" result) = get "sources" report
    /\ get "documentsUsed" (get "context" result) = get "documentCount" report.
Proof.
  destruct (context_and_request_agree Sample.config Sample.providers
              (Sample.world (inr (Val [Sample.otel_chunk; Sample.blog_chunk;
                                       Sample.otel_chunk]))) Sample.tracing
              (Val "anthropic") Undefined (Val true) Sample.anthropic
              [Sample.otel_chunk; Sample.blog_chunk; Sample.otel_chunk]
              "It depends." eq_refl eq_refl eq_refl)
    as (report & result & Hrep & Hres & _ & Hsrc & _ & Hsame & Hcount).
  exists report, result.
  split_and!; [exact Hrep | exact Hres | exact Hsrc | exact Hsame | exact Hcount].
Defined.

(** A vector store that refuses the connection. *)
Lemma search_failure_wrapped_witness :
  outcome (askQuestion Sample.config Sample.providers
             (Sample.world (inl (Error "connection refused"))) Sample.tracing
             (Sample.with_provider "openai" false))
  = inl (Error "Failed to generate response: connection refused").
Proof.
  destruct (search_failure_wrapped Sample.config Sample.providers
              (Sample.world (inl (Error "connection refused"))) Sample.tracing
              (Sample.with_provider "openai" false) Sample.openai
              (Error "connection refused") eq_refl eq_refl)
    as (Hout & _).
  exact Hout.
Defined.

(** C9, as stated, fails: the message of the error is not the message
    of the failure but that message behind a prefix. *)
Lemma search_failure_message_is_prefixed :
  ~ search_failure_propagated_verbatim Sample.config Sample.providers
      (Sample.world (inl (Error "connection refused"))) Sample.tracing
      (Sample.with_provider "openai" false) (Error "connection refused").
Proof.
  intros (error & Hout & Hmsg & _).
  vm_compute in Hout. injection Hout as <-.
  vm_compute in Hmsg. discriminate Hmsg.
Qed.



End Service.

(* ================================================================== *)
(** * The runs of a request, case by case *)
(* ================================================================== *)

Module RunTable.
Import Str StrFacts Number JS Effects LLMProviderService RAGService Props.
Import SourcesFacts RunFacts MoreProps.

Section Table.
Variable config : LLMConfig.
Variable providers : Providers.
Variable world : World.

(** Every run of [generateResponse]: the lookup, the search, the model
    call and the shaping of the result, each of which may end it. *)
Lemma generateResponse_cases (question : string) (name : nullable string)
    (k : nullable number) :
  generateResponse config providers world question name k =
  match getProvider config providers (default_param name Null) with
  | inl error =>
      ([opening question; LogError "Error generating RAG response:" error], inl error)
  | inr llm =>
      match similaritySearchWithScore world question (default_param k five) with
      | inl failure =>
          ([opening question;
            Searched question (default_param k five);
            LogError "Error generating RAG response:" failure],
           inl failure)
      | inr found =>
          let prompt := format_prompt (formatContext found) question in
          match invoke world llm prompt with
          | inl failure =>
              ([opening question;
                Searched question (default_param k five);
                Invoked llm prompt;
                LogError "Error generating RAG response:" failure],
               inl failure)
          | inr answer =>
              match found with
              | Val docs =>
                  ([opening question;
                    Searched question (default_param k five);
                    Invoked llm prompt;
                    LogInfo "Response generated successfully"],
                   inr (payload question
                          (provider_label providers (default_param name Null))
                          (VString (now world)) docs (ordered_distinct (labels docs)) answer))
              | _ =>
                  ([opening question;
                    Searched question (default_param k five);
                    Invoked llm prompt;
                    LogInfo "Response generated successfully";
                    LogError "Error generating RAG response:"
                      (TypeError (cannot_read found "length"))],
                   inl (TypeError (cannot_read found "length")))
              end
          end
      end
  end.
Proof.
  destruct (getProvider config providers (default_param name Null)) as [error|llm] eqn:Hp.
  { by apply generateResponse_no_provider. }
  destruct (similaritySearchWithScore world question (default_param k five))
    as [failure|found] eqn:Hs.
  { by apply (generateResponse_search_fails _ _ _ _ _ _ llm). }
  cbv zeta.
  destruct (invoke world llm (format_prompt (formatContext found) question))
    as [failure|answer] eqn:Hi.
  { by apply (generateResponse_llm_fails _ _ _ _ _ _ llm found). }
  destruct found as [| |docs].
  - by apply (generateResponse_absent_result _ _ _ _ _ _ llm Undefined answer).
  - by apply (generateResponse_absent_result _ _ _ _ _ _ llm Null answer).
  - by apply (generateResponse_run _ _ _ _ _ _ llm docs answer).
Qed.

(** [askQuestion] adds its own log line and the wrapping of the error. *)
Lemma askQuestion_cases (question : string) (options : Options) :
  askQuestion config providers world question options =
  match generateResponse config providers world question
          (provider options) (maxContextDocs options) with
  | (t, inr result) =>
      (t, inr (match default_param (includeContext options) (Val false) with
               | Val true => result
               | _ => project result
               end))
  | (t, inl error) => (t ++ [LogError "Error in askQuestion:" error], inl (wrapped error))
  end.
Proof.
  rewrite askQuestion_unfold.
  replace (generateResponse config providers world question
             (default_param (provider options) Null)
             (default_param (maxContextDocs options) five))
    with (generateResponse config providers world question
            (provider options) (maxContextDocs options)); [done|].
  unfold generateResponse. by rewrite !default_param_idem.
Qed.

(** Every run of [getContextForQuestion]. *)
Lemma getContextForQuestion_cases (question : string) (k : nullable number) :
  getContextForQuestion world question k =
  match similaritySearchWithScore world question (default_param k five) with
  | inl failure =>
      ([Searched question (default_param k five);
        LogError "Error getting context for question:" failure],
       inl failure)
  | inr (Val docs) =>
      ([Searched question (default_param k five)],
       inr (context_report docs (ordered_distinct (labels docs))))
  | inr found =>
      ([Searched question (default_param k five);
        LogError "Error getting context for question:"
          (TypeError (cannot_read found "forEach"))],
       inl (TypeError (cannot_read found "forEach")))
  end.
Proof.
  destruct (similaritySearchWithScore world question (default_param k five))
    as [failure|found] eqn:Hs.
  - unfold getContextForQuestion. run. rewrite Hs. by run.
  - destruct found as [| |docs].
    + unfold getContextForQuestion. run. rewrite Hs. by run.
    + unfold getContextForQuestion. run. rewrite Hs. by run.
    + by rewrite (getContextForQuestion_run world question k docs Hs).
Qed.

(** Defaults that the caller already applied change nothing. *)
Lemma askQuestion_defaults_applied (question : string) (options : Options) :
  askQuestion config providers world question
    {| provider := default_param (provider options) Null;
       maxContextDocs := default_param (maxContextDocs options) five;
       includeContext := default_param (includeContext options) (Val false) |} =
  askQuestion config providers world question options.
Proof.
  unfold askQuestion. cbn [provider maxContextDocs includeContext].
  by rewrite !default_param_idem.
Qed.

End Table.
End RunTable.

(* ================================================================== *)
(** * Further properties of ragService.js *)
(* ================================================================== *)

Module RequestProps.
Import Str StrFacts Number JS Effects LLMProviderService RAGService Props.
Import SourcesFacts RunFacts RegistryFacts MoreProps RunTable.

Ltac table := rewrite ?askQuestion_cases, ?generateResponse_cases.

Section Requests.
Variable config : LLMConfig.
Variable providers : Providers.
Variable world : World.

(** X4.  Whatever makes a request fail (the provider lookup, the
    search, the model, the shaping of the result), [askQuestion] throws
    a plain [Error] whose message is the message of that cause behind
    [Failed to generate response: ], and its last log line names the
    cause. *)
Theorem askQuestion_error_always_wrapped (question : string) (options : Options)
    (error : exn) :
  let request := askQuestion config providers world question options in
  outcome request = inl error ->
  exists cause : exn,
    outcome (generateResponse config providers world question
               (provider options) (maxContextDocs options)) = inl cause
    /\ error = Error ("Failed to generate response: " +:+ message cause)
    /\ last (trace request) = Some (LogError "Error in askQuestion:" cause).
Proof.
  intros request Hout. subst request. rewrite askQuestion_cases in Hout |- *.
  destruct (generateResponse config providers world question
              (provider options) (maxContextDocs options)) as [t [cause|result]];
    cbn [outcome trace fst snd] in *; [|done].
  injection Hout as <-. exists cause. split_and!; try done.
  by rewrite last_snoc.
Qed.

(** X5.  A request searches at most once and calls a model at most
    once: nothing is retried.  The model is only called after a search,
    and the search is only made once the provider is resolved. *)
Theorem askQuestion_single_search_single_call (question : string) (options : Options) :
  let t := trace (askQuestion config providers world question options) in
  (length (searches t) <= 1)%nat
  /\ (length (invocations t) <= 1)%nat
  /\ (invocations t <> [] -> searches t <> [])
  /\ (searches t <> [] ->
      exists llm : Client,
        getProvider config providers (default_param (provider options) Null) = inr llm).
Proof.
  intros t. subst t. table.
  destruct (getProvider config providers (default_param (provider options) Null))
    as [error|llm]; [by split_and!; cbn; try lia|].
  destruct (similaritySearchWithScore world question _) as [failure|found];
    [by split_and!; cbn; eauto; try lia|].
  cbv zeta.
  destruct (invoke world llm _) as [failure|answer];
    [by split_and!; cbn; eauto; try lia|].
  destruct found; split_and!; cbn; eauto; try lia; done.
Qed.

(** X6.  When the model call fails, the request fails with the wrapped
    message of that failure: the one registered client was called once,
    on the prompt built from the search result, and no other provider
    is tried. *)
Theorem model_failure_wrapped_no_fallback (question : string) (options : Options)
    (llm : Client) (found : nullable (list ScoredChunk)) (failure : exn) :
  let request := askQuestion config providers world question options in
  let prompt := format_prompt (formatContext found) question in
  getProvider config providers (default_param (provider options) Null) = inr llm ->
  similaritySearchWithScore world question
    (default_param (maxContextDocs options) five) = inr found ->
  invoke world llm prompt = inl failure ->
  outcome request = inl (Error ("Failed to generate response: " +:+ message failure))
  /\ invocations (trace request) = [(llm, prompt)]
  /\ searches (trace request) = [(question, default_param (maxContextDocs options) five)].
Proof.
  intros request prompt Hp Hs Hi. subst request prompt. table.
  rewrite Hp, Hs. cbv zeta. by rewrite Hi.
Qed.

(** X7.  A request that names a provider which is not registered fails
    with the wrapped lookup error, which lists the registered names,
    before any search or model call. *)
Theorem unknown_provider_fails_before_search (question : string) (options : Options)
    (name : string) :
  let request := askQuestion config providers world question options in
  provider options = Val name ->
  name ∉ getAvailableProviders providers ->
  outcome request =
    inl (Error ("Failed to generate response: LLM provider '" +:+ name
                  +:+ "' not available. Available providers: "
                  +:+ join ", " (getAvailableProviders providers)))
  /\ searches (trace request) = []
  /\ invocations (trace request) = [].
Proof.
  intros request Hname Habs. subst request. table. rewrite Hname.
  apply find_None in Habs.
  assert (Hp : getProvider config providers (default_param (Val name) Null)
               = inl (Error (not_available providers (Val name)))).
  { unfold getProvider. simpl. by rewrite Habs. }
  rewrite Hp. by split_and!.
Qed.

(** X8.  [getContextForQuestion] searches exactly once and never calls
    a model.  A failing search is rethrown as it is, unwrapped; a list
    of chunks gives the report; a search that answers [null] or
    [undefined] makes it throw the [TypeError] of reading [forEach],
    although [formatContext] accepted the value. *)
Theorem getContextForQuestion_outcomes (question : string) (k : nullable number) :
  let inspect := getContextForQuestion world question k in
  searches (trace inspect) = [(question, default_param k five)]
  /\ invocations (trace inspect) = []
  /\ outcome inspect =
       match similaritySearchWithScore world question (default_param k five) with
       | inl failure => inl failure
       | inr (Val docs) => inr (context_report docs (ordered_distinct (labels docs)))
       | inr found => inl (TypeError (cannot_read found "forEach"))
       end.
Proof.
  intros inspect. subst inspect. rewrite getContextForQuestion_cases.
  destruct (similaritySearchWithScore world question (default_param k five))
    as [failure|[| |docs]]; done.
Qed.


Lemma context_contains_content (docs : list ScoredChunk) (chunk : ScoredChunk) :
  chunk ∈ docs -> contains (pageContent chunk.1) (formatContext (Val docs)).
Proof.
  intros Hin. unfold formatContext.
  destruct docs as [|first rest] eqn:Hd; [by apply elem_of_nil in Hin|].
  rewrite <- Hd in *. replace (length docs =? 0)%nat with false by by rewrite Hd.
  eapply contains_trans; [|apply join_contains, list_elem_of_fmap; eauto].
  destruct chunk as [doc score]. unfold format_chunk.
  do 6 apply contains_app_r. apply contains_refl.
Qed.

(** X13.  Whenever the search answers with chunks and the provider is
    registered, the model is called once, on a prompt that contains the
    question and the content of every chunk, whether or not the model
    then answers. *)
Theorem prompt_carries_question_and_chunks (question : string) (options : Options)
    (llm : Client) (docs : list ScoredChunk) :
  let request := askQuestion config providers world question options in
  getProvider config providers (default_param (provider options) Null) = inr llm ->
  similaritySearchWithScore world question
    (default_param (maxContextDocs options) five) = inr (Val docs) ->
  exists prompt : string,
    invocations (trace request) = [(llm, prompt)]
    /\ contains question prompt
    /\ forall chunk : ScoredChunk, chunk ∈ docs -> contains (pageContent chunk.1) prompt.
Proof.
  intros request Hp Hs. subst request.
  exists (format_prompt (formatContext (Val docs)) question). split_and!.
  - table. rewrite Hp, Hs. cbv zeta.
    by destruct (invoke world llm _).
  - unfold format_prompt. do 3 apply contains_app_r.
    apply contains_app_l, contains_refl.
  - intros chunk Hin. unfold format_prompt.
    apply contains_app_r, contains_app_l. by apply context_contains_content.
Qed.

(** X14.  [includeContext] changes the shape of the result only: with
    and without it the request performs the same events, fails with the
    same error, and the simplified result is the projection of the full
    one (its response, its sources, its provider and timestamp). *)
Theorem includeContext_changes_shape_only (question : string) (name : nullable string)
    (k : nullable number) (flag : nullable bool) :
  let full := askQuestion config providers world question
                {| provider := name; maxContextDocs := k; includeContext := Val true |} in
  let simple := askQuestion config providers world question
                  {| provider := name; maxContextDocs := k; includeContext := flag |} in
  flag <> Val true ->
  trace simple = trace full
  /\ outcome simple =
       match outcome full with
       | inr result => inr (project result)
       | inl error => inl error
       end.
Proof.
  intros full simple Hflag. subst full simple. rewrite !askQuestion_cases.
  cbn [provider maxContextDocs includeContext].
  destruct (generateResponse config providers world question name k)
    as [t [error|result]]; [done|].
  by destruct flag as [| |[]].
Qed.

End Requests.
End RequestProps.

(* ================================================================== *)
(** * Further properties of the sources and of the context *)
(* ================================================================== *)

Module SourceProps.
Import Str StrFacts Number JS Effects LLMProviderService RAGService Props.
Import SourcesFacts.

Lemma filter_all_out {A} (P : A -> Prop) `{forall x, Decision (P x)} (l : list A) :
  (forall x, x ∈ l -> ~ P x) -> filter P l = [].
Proof.
  induction l as [|x l IH]; intros Hout; [done|].
  rewrite filter_cons_False by (apply Hout; constructor).
  apply IH. intros y Hy. apply Hout. by constructor.
Qed.

Lemma length_ordered_distinct (l : list string) :
  (length (ordered_distinct l) <= length l)%nat.
Proof.
  induction l as [|x l IH]; simpl; [done|].
  pose proof (length_filter (fun y => y <> x) (ordered_distinct l)). lia.
Qed.

Lemma length_labels (docs : list ScoredChunk) : (length (labels docs) <= length docs)%nat.
Proof.
  induction docs as [|chunk docs IH]; [done|].
  rewrite labels_cons. destruct (label chunk); simpl; lia.
Qed.

Lemma collected_is_ordered_distinct (docs : list ScoredChunk) :
  foldl add_source StringSet.empty docs = ordered_distinct (labels docs).
Proof.
  pose proof (extractSources_ordered_distinct docs) as H.
  rewrite extractSources_array in H. by injection H.
Qed.

(** X10.  The sources of a list of chunks stay in front when more
    chunks follow (later chunks only append new names), there are no
    more sources than chunks, and chunks seen a second time add
    nothing. *)
Theorem sources_stable_under_extension (docs more : list ScoredChunk) :
  exists listed added : list string,
    extractSources (Val docs) = inr listed
    /\ extractSources (Val (docs ++ more)) = inr (listed ++ added)
    /\ (length listed <= length docs)%nat
    /\ extractSources (Val (docs ++ docs)) = inr listed.
Proof.
  exists (ordered_distinct (labels docs)),
         (filter (fun y => y ∉ ordered_distinct (labels docs)) (ordered_distinct (labels more))).
  split_and!.
  - apply extractSources_ordered_distinct.
  - rewrite extractSources_array, foldl_app, collected_is_ordered_distinct.
    by rewrite foldl_add_source_labels, foldl_add_distinct.
  - etrans; [apply length_ordered_distinct | apply length_labels].
  - rewrite extractSources_array, foldl_app, collected_is_ordered_distinct.
    rewrite foldl_add_source_labels, foldl_add_distinct.
    rewrite filter_all_out; [by rewrite app_nil_r|].
    intros x Hx Hnot. by apply Hnot.
Qed.

Lemma source_or_unknown_label (chunk : ScoredChunk) :
  match label chunk with
  | Some s => source_or_unknown chunk.1 = s
  | None => source_or_unknown chunk.1 = "unknown"
  end.
Proof. unfold label, source_or_unknown. by destruct (truthy (source_of chunk.1)). Qed.

(** X11.  Every entry of [relevanceScores] names a non-empty source.
    The names of the entries are exactly the listed [sources], except
    that the ["unknown"] which stands for a missing or empty source is
    not listed. *)
Theorem sources_match_relevance_scores (docs : list ScoredChunk) :
  exists listed : list string,
    extractSources (Val docs) = inr listed
    /\ (forall chunk : ScoredChunk,
          chunk ∈ docs ->
          exists name : string,
            relevance_entry chunk = VObject [("source", VString name); ("score", VNumber chunk.2)]
            /\ name <> ""
            /\ (name ∈ listed \/ (name = "unknown" /\ truthy (source_of chunk.1) = false)))
    /\ (forall name : string,
          name ∈ listed ->
          exists chunk : ScoredChunk,
            chunk ∈ docs /\ get "source" (relevance_entry chunk) = VString name).
Proof.
  destruct (collected_spec docs) as (_ & Hmem & _).
  exists (foldl add_source StringSet.empty docs). split_and!; [done| |].
  - intros [doc score] Hin. exists (source_or_unknown doc).
    pose proof (source_or_unknown_label (doc, score)) as Hl.
    split_and!; [done| |].
    + destruct (label (doc, score)) as [s|] eqn:Hs; simpl in Hl; rewrite Hl; [|done].
      by apply label_Some in Hs as [_ ?].
    + destruct (label (doc, score)) as [s|] eqn:Hs; simpl in Hl; rewrite Hl.
      * left. apply Hmem. eauto.
      * right. split; [done|]. unfold label in Hs.
        by destruct (truthy (source_of (doc, score).1)).
  - intros name (chunk & Hin & Hl)%Hmem. exists chunk. split; [done|].
    pose proof (source_or_unknown_label chunk) as Hs. rewrite Hl in Hs.
    destruct chunk as [doc score]. simpl in *. by rewrite Hs.
Qed.

(** X12.  The context is the sentinel sentence exactly when there are
    no chunks (an empty list, [null] or [undefined]); otherwise it
    starts with the header of the first chunk.  It is never empty. *)
Theorem sentinel_iff_no_chunks (found : nullable (list ScoredChunk)) :
  (formatContext found = no_context <-> is_missing found = true \/ found = Val [])
  /\ (forall first rest, found = Val (first :: rest) ->
        exists tail : string, formatContext found = "Source: " +:+ tail)
  /\ formatContext found <> "".
Proof.
  assert (Hstart : forall first rest,
            exists tail, formatContext (Val (first :: rest)) = "Source: " +:+ tail).
  { intros [doc score] rest. unfold formatContext. simpl length. simpl Nat.eqb.
    rewrite fmap_cons. destruct rest as [|second rest].
    - eexists. reflexivity.
    - rewrite join_cons by done. unfold format_chunk at 1.
      eexists. rewrite !sapp_assoc. reflexivity. }
  split_and!.
  - destruct found as [| |[|first rest]]; split; try done; eauto.
    + destruct (Hstart first rest) as [tail ->]. discriminate.
    + intros [?|?]; done.
  - intros first rest ->. apply Hstart.
  - destruct found as [| |[|first rest]]; try done.
    destruct (Hstart first rest) as [tail ->]. discriminate.
Qed.

End SourceProps.

(* ================================================================== *)
(** * Further properties of llmProvider.js *)
(* ================================================================== *)

Module RegistryProps.
Import Str StrFacts Number JS Effects LLMProviderService RAGService Props.
Import RegistryFacts MoreProps ProviderTest.

Ltac by_decide := apply (bool_decide_unpack _); vm_compute; exact I.


(** X2.  In the registry the constructor built, a provider is available
    exactly when its credentials are configured, and it is then the
    client made from the configuration; any other name is unavailable. *)
Theorem provider_available_iff_configured (config : LLMConfig) (providers : Providers) :
  outcome (initializeProviders config) = inr providers ->
  getProvider config providers (Val "openai") =
    (if truthy (openai_apiKey config)
     then inr (ChatOpenAI (show (openai_apiKey config)) (openai_model config)
                 (temperature config) (maxTokens config))
     else inl (Error (not_available providers (Val "openai"))))
  /\ getProvider config providers (Val "anthropic") =
       (if truthy (anthropic_apiKey config)
        then inr (ChatAnthropic (show (anthropic_apiKey config)) (anthropic_model config)
                    (temperature config) (maxTokens config))
        else inl (Error (not_available providers (Val "anthropic"))))
  /\ getProvider config providers (Val "bedrock") =
       (if truthy (bedrock_accessKeyId config) && truthy (bedrock_secretAccessKey config)
        then inr (ChatBedrockConverse (bedrock_model config) (temperature config)
                    (maxTokens config) (bedrock_region config)
                    (show (bedrock_accessKeyId config))
                    (show (bedrock_secretAccessKey config)))
        else inl (Error (not_available providers (Val "bedrock"))))
  /\ (forall name : string,
        name ∉ ["openai"; "anthropic"; "bedrock"] ->
        getProvider config providers (Val name)
        = inl (Error (not_available providers (Val name)))).
Proof.
  intros Hinit. split_and!.
  1-3: revert Hinit; unfold initializeProviders;
       destruct (truthy (openai_apiKey config)),
                (truthy (anthropic_apiKey config)),
                (truthy (bedrock_accessKeyId config)),
                (truthy (bedrock_secretAccessKey config));
       cbn; intros [= <-]; reflexivity.
  intros name Hname.
  assert (Habs : name ∉ StringMap.keys providers).
  { intros Hin. apply Hname.
    pose proof (initializeProviders_keys config providers Hinit) as Hkeys.
    by eapply Forall_forall in Hkeys. }
  apply find_None in Habs. unfold getProvider. simpl. by rewrite Habs.
Qed.

Section Test.
Variable config : LLMConfig.
Variable providers : Providers.
Variable chat : Client -> string -> result string.



End Test.
End RegistryProps.

(* ================================================================== *)
(** * Properties of routes/chat.js *)
(* ================================================================== *)

Module RouteProps.
Import Str StrFacts Number JS Effects LLMProviderService RAGService Props.
Import RunFacts RegistryFacts MoreProps RunTable ProviderTest ChatRoutes RouteStatements
  RegistryProps.

Section Routes.
Variable config : LLMConfig.
Variable providers : Providers.
Variable world : World.
Variable chat : Client -> string -> result string.
Variable parseInt : string -> number.

Lemma searches_logged (t : list event) (msg : string) (error : exn) :
  searches (t ++ [LogError msg error]) = searches t.
Proof. unfold searches. rewrite omap_app. cbn. apply app_nil_r. Qed.

Lemma invocations_logged (t : list event) (msg : string) (error : exn) :
  invocations (t ++ [LogError msg error]) = invocations t.
Proof. unfold invocations. rewrite omap_app. cbn. apply app_nil_r. Qed.

Lemma post_chat_cases (body : ChatBody) :
  post_chat config providers world body =
  let provider := default_param (chat_provider body) Null in
  let received :=
    LogInfo ("Chat request received: " +:+ dquote +:+ chat_message body +:+ dquote
               +:+ " with provider: "
               +:+ (if truthy provider then show provider else "default")) in
  match askQuestion config providers world (chat_message body) (options_of body) with
  | (t, inr result) => (received :: t, inr (ok result))
  | (t, inl error) =>
      (received :: t ++ [LogError "Error in chat endpoint:" error],
       inr (server_error "Failed to generate response" error))
  end.
Proof.
  unfold post_chat. cbv zeta.
  pose proof (askQuestion_defaults_applied config providers world (chat_message body)
                (options_of body)) as Hdef.
  cbn [options_of provider maxContextDocs includeContext] in Hdef. rewrite Hdef.
  clear Hdef. unfold options_of.
  destruct (askQuestion config providers world (chat_message body) _)
    as [t [error|result]]; run; by rewrite ?app_nil_r.
Qed.

(** X15.  The chat route never throws: it answers 200 with the result
    of [askQuestion] as [data] when the request succeeds, and otherwise
    500 with the fixed [error] text and, as [message], the wrapped
    message [askQuestion] threw.  It searches and calls the model as
    [askQuestion] does. *)
Theorem post_chat_reply (body : ChatBody) :
  let request := askQuestion config providers world (chat_message body) (options_of body) in
  let handled := post_chat config providers world body in
  exists reply : Reply value,
    outcome handled = inr reply
    /\ searches (trace handled) = searches (trace request)
    /\ invocations (trace handled) = invocations (trace request)
    /\ match outcome request with
       | inr result => status reply = 200%nat /\ ChatRoutes.body reply = Success result
       | inl error =>
           status reply = 500%nat
           /\ ChatRoutes.body reply
              = Failure "Failed to generate response" (Val (message error))
           /\ exists cause : exn,
                message error = "Failed to generate response: " +:+ message cause
       end.
Proof.
  intros request handled. subst request handled. rewrite post_chat_cases. cbv zeta.
  pose proof (askQuestion_cases config providers world (chat_message body)
                (options_of body)) as Hcases.
  destruct (askQuestion config providers world (chat_message body) (options_of body))
    as [t [error|result]] eqn:Hask.
  - eexists. split_and!; try reflexivity.
    + cbn [trace fst]. change (searches (?e :: ?l)) with (searches l).
      apply searches_logged.
    + cbn [trace fst]. change (invocations (?e :: ?l)) with (invocations l).
      apply invocations_logged.
    + cbn [outcome snd]. split_and!; try done.
      destruct (generateResponse config providers world (chat_message body) _ _)
        as [t' [cause|result]]; simplify_eq. by exists cause.
  - eexists. by split_and!.
Qed.

(** X16.  A chat request whose body names no provider is answered 500
    with the lookup error of ['null'], whatever the registry and the
    configured default; nothing is searched and no model is called. *)
Theorem post_chat_without_provider (body : ChatBody) :
  let handled := post_chat config providers world body in
  is_missing (chat_provider body) = true ->
  outcome handled =
    inr {| status := 500;
           ChatRoutes.body :=
             Failure "Failed to generate response"
               (Val ("Failed to generate response: LLM provider 'null' not available. Available providers: "
                       +:+ join ", " (getAvailableProviders providers))) |}
  /\ searches (trace handled) = []
  /\ invocations (trace handled) = [].
Proof.
  intros handled Hm. subst handled. rewrite post_chat_cases. cbv zeta.
  rewrite askQuestion_cases, generateResponse_cases. cbn [options_of provider].
  assert (Hp : getProvider config providers (default_param (chat_provider body) Null)
               = inl (Error (not_available providers Null))).
  { by destruct (chat_provider body). }
  rewrite Hp. by split_and!.
Qed.

(** X17.  The context route answers 400 without searching when the
    question is missing or empty.  Otherwise it searches once, for the
    parsed [maxDocs] (["5"] when absent), never calls a model, and
    answers 200 with the report, or 500 with the message of the failure
    as it is (a failing search, or the [TypeError] on a [null]
    result). *)
Theorem get_context_reply (query : ContextQuery) :
  let handled := get_context world parseInt query in
  let question := show (query_question query) in
  let k := Val (parseInt (show (default_param (query_maxDocs query) (Val "5")))) in
  invocations (trace handled) = []
  /\ if truthy (query_question query) then
       searches (trace handled) = [(question, k)]
       /\ outcome handled =
            inr (match similaritySearchWithScore world question k with
                 | inl failure => server_error "Failed to retrieve context" failure
                 | inr (Val docs) => ok (context_report docs (ordered_distinct (labels docs)))
                 | inr found =>
                     server_error "Failed to retrieve context"
                       (TypeError (cannot_read found "forEach"))
                 end)
     else
       handled = ([], inr (bad_request "Question parameter is required")).
Proof.
  intros handled question k. subst handled question k. unfold get_context. cbv zeta.
  destruct (truthy (query_question query)); [|done].
  cbn [negb]. rewrite getContextForQuestion_cases. cbn [default_param].
  destruct (similaritySearchWithScore world _ _) as [failure|[| |docs]]; done.
Qed.


End Routes.
End RouteProps.

(* ================================================================== *)
(** * Properties of the middleware *)
(* ================================================================== *)

Module MiddlewareProps.
Import Str JS Middleware.

(** X19.  With no API key configured (unset or empty) every request is
    handed on; with one configured, a request is handed on exactly when
    its [x-api-key] header equals it, and is otherwise answered 401
    after one warning that names the caller. *)
Theorem validateApiKey_passes_iff (API_KEY header : nullable string) (ip : string) :
  ((validateApiKey API_KEY header ip).2 = Next <->
   truthy API_KEY = false \/ header = API_KEY)
  /\ ((validateApiKey API_KEY header ip).2 <> Next ->
      validateApiKey API_KEY header ip =
        (["Invalid or missing API key from IP: " +:+ ip],
         Rejected 401 "Invalid or missing API key" Undefined)).
Proof.
  unfold validateApiKey.
  destruct (truthy API_KEY) eqn:Hkey; cbn [negb].
  2: { split; [by split; [left|]|done]. }
  destruct (truthy header) eqn:Hheader; cbn [negb orb].
  - case_bool_decide as Heq; cbn [negb].
    + split; [by split; [right|]|done].
    + split; [|done]. split; [done|]. by intros [?|?].
  - split; [|done]. split; [done|].
    intros [? | ->]; [done|]. congruence.
Qed.

(** X20.  Without an upload the request is handed on.  An uploaded file
    (the single [req.file], else the first of [req.files]) is accepted
    exactly when it has at most 5242880 bytes and one of the four
    allowed types; the size is checked first, and a file of exactly
    5 MB passes.  An empty [req.files] array makes the middleware throw
    the [TypeError] of reading [size]. *)
Theorem validateFileUpload_accepts_iff (file : nullable File) (files : nullable (list File)) :
  (is_missing file = true -> is_missing files = true ->
   validateFileUpload file files = inr Next)
  /\ (forall chosen : File,
        file = Val chosen
        \/ (is_missing file = true /\ exists others, files = Val (chosen :: others)) ->
        (validateFileUpload file files = inr Next <->
         (size chosen <= 5242880)%N /\ mimetype chosen ∈ allowedTypes)
        /\ ((5242880 < size chosen)%N ->
            validateFileUpload file files =
              inr (Rejected 400 "File too large" (Val "File size must be less than 5MB"))))
  /\ (is_missing file = true -> files = Val [] ->
      validateFileUpload file files =
        inl (TypeError "Cannot read properties of undefined (reading 'size')")).
Proof.
  split_and!.
  - intros Hfile Hfiles. unfold validateFileUpload. by rewrite Hfile, Hfiles.
  - intros chosen Hchosen.
    assert (Hrun : validateFileUpload file files =
                   if (maxSize <? size chosen)%N then
                     inr (Rejected 400 "File too large"
                            (Val "File size must be less than 5MB"))
                   else if negb (bool_decide (mimetype chosen ∈ allowedTypes)) then
                     inr (Rejected 400 "Invalid file type"
                            (Val "Only text, PDF, HTML, and Markdown files are allowed"))
                   else inr Next).
    { unfold validateFileUpload.
      destruct Hchosen as [->|[Hfile [others ->]]]; [done|].
      by destruct file. }
    rewrite Hrun. change maxSize with 5242880%N.
    destruct (N.ltb_spec 5242880 (size chosen)) as [Hbig|Hsmall].
    + split; [|done]. split; [done|]. intros [? _]. lia.
    + split; [|lia]. case_bool_decide as Htype; cbn [negb].
      * by split.
      * split; [done|]. by intros [_ ?].
  - intros Hfile ->. unfold validateFileUpload. by destruct file.
Qed.

End MiddlewareProps.

(* ================================================================== *)
(** * Properties of the ingestion paths *)
(* ================================================================== *)

Module IngestionProps.
Import Str StrFacts NumberFacts Number JS Effects ChatRoutes Ingestion.

Lemma lookup_set (k k' : string) (v : value) (object : list (string * value)) :
  lookup_field k (StringMap.set k' v object) =
  if String.eqb k k' then Some v else lookup_field k object.
Proof.
  induction object as [|[k0 v0] object IH]; simpl.
  - by destruct (String.eqb k k').
  - destruct (String.eqb_spec k' k0) as [->|Hne]; simpl.
    + by destruct (String.eqb k k0).
    + destruct (String.eqb_spec k k0) as [->|Hne'].
      * destruct (String.eqb_spec k0 k'); by simplify_eq.
      * done.
Qed.


(** A spread field wins over the field written before it, the last one
    of several wins, and the fields written before keep their place. *)
Lemma spread_lookup (fields extra : list (string * value)) (k : string) :
  lookup_field k (spread fields extra) =
  match lookup_field k (reverse extra) with
  | Some v => Some v
  | None => lookup_field k fields
  end.
Proof.
  unfold spread. induction extra as [|[k' v'] extra IH] using rev_ind; [done|].
  rewrite foldl_snoc, reverse_snoc, lookup_set. simpl.
  by destruct (String.eqb k k').
Qed.


Lemma lookup_absent (k : string) (fields : list (string * value)) :
  k ∉ fields.*1 -> lookup_field k fields = None.
Proof.
  induction fields as [|[k' v'] fields IH]; simpl; [done|].
  intros [Hne Hrest]%not_elem_of_cons.
  destruct (String.eqb_spec k k'); [done|]. by apply IH.
Qed.

(** X21.  The ingestion route never throws.  A request without content
    is answered 400 whatever the store would do (with its own message
    when only a URL is given); a request with content hands exactly one
    document to the store and answers 200 with the chunk count, or 500
    with the message of the store's failure.  The answer repeats the
    [title] and [source] of the request body. *)
Theorem post_ingest_reply (addDocuments : list NewDocument -> result N) (now_iso : string)
    (body : IngestBody) :
  if truthy (ingest_content body) then
    post_ingest addDocuments now_iso body =
    match addDocuments [document_of now_iso body] with
    | inr chunksAdded =>
        ([LogInfo ("Document ingested: " +:+ ingest_title body +:+ " ("
                     +:+ of_chars (digits (Z.of_N chunksAdded)) +:+ " chunks)")],
         inr (ok {| data_title := ingest_title body;
                    data_source := ingest_source body;
                    data_chunksAdded := chunksAdded;
                    data_message := "Document successfully ingested" |}))
    | inl error =>
        ([LogError "Error ingesting document:" error],
         inr (server_error "Failed to ingest document" error))
    end
  else
    forall store : list NewDocument -> result N,
      post_ingest store now_iso body =
      ([], inr (bad_request
                  (if truthy (ingest_url body)
                   then "URL ingestion not implemented. Please provide content directly."
                   else "Either content or url must be provided"))).
Proof.
  unfold post_ingest.
  destruct (truthy (ingest_content body)), (truthy (ingest_url body)); cbn; try done.
  all: by destruct (addDocuments [document_of now_iso body]).
Qed.


Lemma no_dash_in_digits (n : Z) : "-"%char ∉ digits n.
Proof.
  pose proof (digits_all_digit n) as Hd.
  induction (digits n) as [|c cs IH]; [apply not_elem_of_nil|].
  simpl in Hd. apply andb_true_iff in Hd as [Hc Hcs].
  apply not_elem_of_cons. split; [|by apply IH].
  intros <-. discriminate Hc.
Qed.

Lemma split_at_dash (a a' b b' : list ascii) :
  "-"%char ∉ a -> "-"%char ∉ a' ->
  a ++ "-"%char :: b = a' ++ "-"%char :: b' -> a = a' /\ b = b'.
Proof.
  revert a'. induction a as [|c a IH]; intros [|c' a'] Ha Ha' Heq; simpl in *.
  - by simplify_eq.
  - simplify_eq. exfalso. apply Ha'. constructor.
  - simplify_eq. exfalso. apply Ha. constructor.
  - simplify_eq. apply not_elem_of_cons in Ha as [_ Ha].
    apply not_elem_of_cons in Ha' as [_ Ha'].
    destruct (IH a' Ha Ha' H0) as [-> ->]. done.
Qed.

Lemma of_chars_inj (l k : list ascii) : of_chars l = of_chars k -> l = k.
Proof.
  intros H. apply (f_equal list_ascii_of_string) in H.
  unfold of_chars in H. by rewrite !list_ascii_of_string_of_list_ascii in H.
Qed.

Lemma digits_inj (x y : Z) : 0 <= x -> 0 <= y -> digits x = digits y -> x = y.
Proof.
  intros Hx Hy H. apply (f_equal decimal_value) in H.
  rewrite !decimal_value_digits in H. injection H as H. lia.
Qed.

(** The identifier tells the reading of the clock and the index. *)
Lemma documentId_inj (t t' : N) (i j : nat) :
  documentId t i = documentId t' j -> t = t' /\ i = j.
Proof.
  unfold documentId. intros H. apply String.app_inj in H.
  change "-" with (of_chars ["-"%char]) in H.
  rewrite <- !of_chars_app in H. apply of_chars_inj in H.
  apply split_at_dash in H as [Ht Hi]; try apply no_dash_in_digits.
  apply digits_inj in Ht; [|lia..]. apply digits_inj in Hi; [|lia..]. lia.
Qed.

(** X23.  The documents of one ingestion batch keep the order and the
    content of the samples, and as long as no sample carries a
    [document_id] of its own in its metadata, each one is stored with
    the identifier generated from the clock and its index, so that the
    identifiers of a batch are pairwise distinct whatever the clock
    reads. *)
Theorem batch_ids_distinct (clock : nat -> N * string) (docs : list SampleDocument) :
  let stored := processDocuments clock docs in
  Forall (fun doc => "document_id" ∉ (own_fields (sample_metadata doc)).*1) docs ->
  length stored = length docs
  /\ (forall (i : nat) (doc : SampleDocument),
        docs !! i = Some doc ->
        exists document : NewDocument,
          stored !! i = Some document
          /\ new_pageContent document = sample_content doc
          /\ lookup_field "document_id" (new_metadata document)
             = Some (VString (documentId (clock i).1 i)))
  /\ (forall (i j : nat) (a b : NewDocument),
        stored !! i = Some a -> stored !! j = Some b ->
        lookup_field "document_id" (new_metadata a)
        = lookup_field "document_id" (new_metadata b) ->
        i = j).
Proof.
  intros stored Hfree. subst stored.
  assert (Hat : forall i doc, docs !! i = Some doc ->
            processDocuments clock docs !! i
              = Some (processDocument (clock i).1 (clock i).2 doc i)
            /\ lookup_field "document_id"
                 (new_metadata (processDocument (clock i).1 (clock i).2 doc i))
               = Some (VString (documentId (clock i).1 i))).
  { intros i doc Hi. split.
    - unfold processDocuments. by rewrite list_lookup_imap, Hi.
    - unfold processDocument. cbn [new_metadata].
      rewrite spread_lookup, lookup_absent; [done|].
      rewrite fmap_reverse, elem_of_reverse.
      eapply Forall_forall in Hfree; [exact Hfree|]. by eapply list_elem_of_lookup_2. }
  split_and!.
  - unfold processDocuments. apply length_imap.
  - intros i doc Hi. destruct (Hat i doc Hi) as [Hstored Hid].
    eexists. split_and!; [exact Hstored|done|exact Hid].
  - intros i j a b Ha Hb Hsame.
    assert (is_Some (docs !! i)) as [da Hda].
    { apply lookup_lt_is_Some. apply lookup_lt_Some in Ha.
      unfold processDocuments in Ha. by rewrite length_imap in Ha. }
    assert (is_Some (docs !! j)) as [db Hdb].
    { apply lookup_lt_is_Some. apply lookup_lt_Some in Hb.
      unfold processDocuments in Hb. by rewrite length_imap in Hb. }
    destruct (Hat i da Hda) as [Ha' Hida]. destruct (Hat j db Hdb) as [Hb' Hidb].
    rewrite Ha in Ha'. rewrite Hb in Hb'. simplify_eq.
    rewrite Hida, Hidb in Hsame.
    assert (Hid : documentId (clock i).1 i = documentId (clock j).1 j) by congruence.
    by apply documentId_inj in Hid as [_ ?].
Qed.

(** X24.  [ingestSampleDocuments] hands the whole processed batch to
    the store in one call and reports as many documents as there are
    samples together with the chunk count of the store; a failure of
    the store is logged and rethrown as it is. *)
Theorem ingestSampleDocuments_summary (addDocuments : list NewDocument -> result N)
    (clock : nat -> N * string) (docs : list SampleDocument) :
  let ingestion := ingestSampleDocuments addDocuments clock docs in
  outcome ingestion =
    match addDocuments (processDocuments clock docs) with
    | inr chunks => inr {| documentsIngested := length docs; chunksCreated := chunks |}
    | inl failure => inl failure
    end
  /\ match addDocuments (processDocuments clock docs) with
     | inr _ => True
     | inl failure =>
         last (trace ingestion) = Some (LogError "Error ingesting sample documents:" failure)
     end.
Proof.
  intros ingestion. subst ingestion. unfold ingestSampleDocuments.
  destruct (addDocuments (processDocuments clock docs)) as [failure|chunks]; cbn.
  - done.
  - unfold processDocuments. by rewrite length_imap.
Qed.

End IngestionProps.

(* ================================================================== *)
(** * The further properties on sample data *)
(* ================================================================== *)

Module Scenarios.
Import Str Number JS Effects LLMProviderService RAGService Props.
Import MoreProps MoreSample ProviderTest ChatRoutes RouteStatements.
Import RequestProps SourceProps RegistryProps RouteProps.

(** The registry of the configuration with the Anthropic key only. *)
Lemma provider_available_iff_configured_witness :
  getProvider anthropic_only [("anthropic", Sample.anthropic)] (Val "anthropic")
    = inr Sample.anthropic
  /\ getProvider anthropic_only [("anthropic", Sample.anthropic)] (Val "bedrock")
     = inl (Error "LLM provider 'bedrock' not available. Available providers: anthropic").
Proof.
  destruct (provider_available_iff_configured anthropic_only
              [("anthropic", Sample.anthropic)] eq_refl)
    as (_ & Hanthropic & Hbedrock & _).
  split; [exact Hanthropic | exact Hbedrock].
Defined.

(** A request against models that are out of quota. *)
Lemma askQuestion_error_always_wrapped_witness :
  exists cause : exn,
    Error "Failed to generate response: quota exceeded"
    = Error ("Failed to generate response: " +:+ message cause).
Proof.
  destruct (askQuestion_error_always_wrapped Sample.config Sample.providers
              (quota_world (inr (Val [Sample.otel_chunk]))) Sample.tracing
              (Sample.with_provider "openai" false)
              (Error "Failed to generate response: quota exceeded") eq_refl)
    as (cause & _ & Hwrapped & _).
  exists cause. exact Hwrapped.
Defined.

(** The documented scenario searched before it called the model. *)
Lemma askQuestion_single_search_single_call_witness :
  searches (trace (askQuestion Sample.config Sample.providers
                     (Sample.world (inr (Val [Sample.otel_chunk]))) Sample.tracing
                     (Sample.with_provider "openai" false))) <> [].
Proof.
  destruct (askQuestion_single_search_single_call Sample.config Sample.providers
              (Sample.world (inr (Val [Sample.otel_chunk]))) Sample.tracing
              (Sample.with_provider "openai" false))
    as (_ & _ & Hcall & _).
  apply Hcall. discriminate.
Defined.

Lemma model_failure_wrapped_no_fallback_witness :
  outcome (askQuestion Sample.config Sample.providers
             (quota_world (inr (Val [Sample.otel_chunk]))) Sample.tracing
             (Sample.with_provider "anthropic" true))
  = inl (Error "Failed to generate response: quota exceeded").
Proof.
  destruct (model_failure_wrapped_no_fallback Sample.config Sample.providers
              (quota_world (inr (Val [Sample.otel_chunk]))) Sample.tracing
              (Sample.with_provider "anthropic" true) Sample.anthropic
              (Val [Sample.otel_chunk]) (Error "quota exceeded") eq_refl eq_refl eq_refl)
    as (Hout & _).
  exact Hout.
Defined.

Lemma unknown_provider_fails_before_search_witness :
  outcome (askQuestion Sample.config Sample.providers
             (Sample.world (inr (Val [Sample.otel_chunk]))) Sample.tracing
             (Sample.with_provider "bedrock" false))
  = inl (Error "Failed to generate response: LLM provider 'bedrock' not available. Available providers: openai, anthropic").
Proof.
  destruct (unknown_provider_fails_before_search Sample.config Sample.providers
              (Sample.world (inr (Val [Sample.otel_chunk]))) Sample.tracing
              (Sample.with_provider "bedrock" false) "bedrock" eq_refl)
    as (Hout & _); [by_decide | exact Hout].
Defined.


Lemma sources_match_relevance_scores_witness :
  exists name : string,
    relevance_entry Sample.unlabelled_chunk
    = VObject [("source", VString name); ("score", VNumber (Finite false 1 (-1)))]
    /\ name <> "".
Proof.
  destruct (sources_match_relevance_scores [Sample.otel_chunk; Sample.unlabelled_chunk])
    as (listed & _ & Hentries & _).
  destruct (Hentries Sample.unlabelled_chunk) as (name & Hentry & Hne & _).
  - do 2 constructor.
  - exists name. split; [exact Hentry | exact Hne].
Defined.

Lemma sentinel_iff_no_chunks_witness :
  exists tail : string,
    formatContext (Val [Sample.otel_chunk; Sample.blog_chunk]) = "Source: " +:+ tail.
Proof.
  destruct (sentinel_iff_no_chunks (Val [Sample.otel_chunk; Sample.blog_chunk]))
    as (_ & Hstart & _).
  exact (Hstart Sample.otel_chunk [Sample.blog_chunk] eq_refl).
Defined.

Lemma prompt_carries_question_and_chunks_witness :
  exists prompt : string,
    invocations (trace (askQuestion Sample.config Sample.providers
                          (quota_world (inr (Val [Sample.otel_chunk; Sample.blog_chunk])))
                          Sample.tracing (Sample.with_provider "openai" false)))
    = [(Sample.openai, prompt)]
    /\ contains "Add custom spans." prompt.
Proof.
  destruct (prompt_carries_question_and_chunks Sample.config Sample.providers
              (quota_world (inr (Val [Sample.otel_chunk; Sample.blog_chunk])))
              Sample.tracing (Sample.with_provider "openai" false) Sample.openai
              [Sample.otel_chunk; Sample.blog_chunk] eq_refl eq_refl)
    as (prompt & Hcall & _ & Hchunks).
  exists prompt. split; [exact Hcall|].
  apply (Hchunks Sample.blog_chunk).
  do 2 constructor.
Defined.

Lemma includeContext_changes_shape_only_witness :
  outcome (askQuestion Sample.config Sample.providers
             (Sample.world (inr (Val [Sample.otel_chunk]))) Sample.tracing
             {| provider := Val "openai"; maxContextDocs := Undefined;
                includeContext := Null |})
  = match outcome (askQuestion Sample.config Sample.providers
                     (Sample.world (inr (Val [Sample.otel_chunk]))) Sample.tracing
                     {| provider := Val "openai"; maxContextDocs := Undefined;
                        includeContext := Val true |}) with
    | inr result => inr (project result)
    | inl error => inl error
    end.
Proof.
  destruct (includeContext_changes_shape_only Sample.config Sample.providers
              (Sample.world (inr (Val [Sample.otel_chunk]))) Sample.tracing
              (Val "openai") Undefined Null) as (_ & Hout); [discriminate|].
  exact Hout.
Defined.

(** A chat request with a message only. *)
Lemma post_chat_without_provider_witness :
  outcome (post_chat Sample.config Sample.providers
             (Sample.world (inr (Val [Sample.otel_chunk])))
             {| chat_message := Sample.tracing; chat_provider := Undefined;
                chat_maxContextDocs := Undefined; chat_includeContext := Undefined |})
  = inr {| status := 500;
           body := Failure "Failed to generate response"
                     (Val "Failed to generate response: LLM provider 'null' not available. Available providers: openai, anthropic") |}.
Proof.
  destruct (post_chat_without_provider Sample.config Sample.providers
              (Sample.world (inr (Val [Sample.otel_chunk])))
              {| chat_message := Sample.tracing; chat_provider := Undefined;
                 chat_maxContextDocs := Undefined; chat_includeContext := Undefined |}
              eq_refl) as (Hout & _).
  exact Hout.
Defined.

(** A request with the configured key, and one with another key. *)
Lemma validateApiKey_passes_iff_witness :
  (Middleware.validateApiKey (Val "s3cret") (Val "s3cret") "10.0.0.7").2 = Middleware.Next
  /\ Middleware.validateApiKey (Val "s3cret") (Val "guess") "10.0.0.7"
     = (["Invalid or missing API key from IP: 10.0.0.7"],
        Middleware.Rejected 401 "Invalid or missing API key" Undefined).
Proof.
  destruct (MiddlewareProps.validateApiKey_passes_iff (Val "s3cret") (Val "s3cret") "10.0.0.7")
    as [Hpass _].
  destruct (MiddlewareProps.validateApiKey_passes_iff (Val "s3cret") (Val "guess") "10.0.0.7")
    as [_ Hreject].
  split.
  - apply Hpass. right. reflexivity.
  - apply Hreject. discriminate.
Defined.

(** A file of exactly 5 MB, and an empty list of files. *)
Lemma validateFileUpload_accepts_iff_witness :
  Middleware.validateFileUpload Undefined (Val [IngestSample.notes]) = inr Middleware.Next
  /\ Middleware.validateFileUpload Undefined (Val [])
     = inl (TypeError "Cannot read properties of undefined (reading 'size')").
Proof.
  destruct (MiddlewareProps.validateFileUpload_accepts_iff Undefined (Val [IngestSample.notes]))
    as (_ & Hfile & _).
  destruct (MiddlewareProps.validateFileUpload_accepts_iff Undefined (Val []))
    as (_ & _ & Hempty).
  split.
  - destruct (Hfile IngestSample.notes) as [Hiff _].
    + right. split; [reflexivity|]. by exists [].
    + apply Hiff. split; [vm_compute; discriminate | by_decide].
  - apply Hempty; reflexivity.
Defined.


(** Two samples ingested while the clock stands still. *)
Lemma batch_ids_distinct_witness :
  length (Ingestion.processDocuments IngestSample.frozen
            [IngestSample.express_guide; IngestSample.workshop_readme]) = 2%nat
  /\ exists document : Ingestion.NewDocument,
       Ingestion.processDocuments IngestSample.frozen
         [IngestSample.express_guide; IngestSample.workshop_readme] !! 1%nat = Some document
       /\ lookup_field "document_id" (Ingestion.new_metadata document)
          = Some (VString "doc-1714564800000-1").
Proof.
  destruct (IngestionProps.batch_ids_distinct IngestSample.frozen
              [IngestSample.express_guide; IngestSample.workshop_readme])
    as (Hlen & Hat & _).
  - repeat constructor; by_decide.
  - split; [exact Hlen|].
    destruct (Hat 1%nat IngestSample.workshop_readme eq_refl) as (document & Hd & _ & Hid).
    exists document. split; [exact Hd|].
    etransitivity; [exact Hid | reflexivity].
Defined.

End Scenarios.
